(** * pyvlx: updating nodes via incoming frames ([pyvlx/node_updater.py])

    A shallow embedding of [NodeUpdater] and the properties of its
    reconciliation of house-monitor notifications against the node model.

    Conventions of the embedding.
    - The node registry [self.pyvlx.nodes] is a finite map from node
      identifiers to node objects; a node mutated in place is stored back
      under its identifier.
    - [await node.after_update()] is recorded as one entry (the node
      identifier) appended to a log of hook invocations; the hook itself
      belongs to the node model and is taken to return normally and to leave
      the node's fields alone.
    - [datetime.datetime.now()] is the clock reading [now] handed to the
      call; timestamps are integers counting seconds, so that adding
      [datetime.timedelta(0, s)] is adding [s].
    - A call either returns or raises; [PYVLXLOG.debug] calls are pure
      diagnostics and are left out. *)

From Stdlib Require Import ZArith Lia Bool.
From stdpp Require Import gmap strings list.

Local Open Scope Z_scope.

(** ** Parameter objects ([pyvlx/parameter.py], external to this module) *)

Module Position.
Record t : Type := Build { position : Z }.
End Position.

Module Intensity.
Record t : Type := Build { intensity : Z }.
End Intensity.

Module SwitchParameter.
Record t : Type := Build { state : Z }.
End SwitchParameter.

Module LimitationTime.
Record t : Type := Build { limit_raw : Z }.
End LimitationTime.

(** The constants of [Parameter] and the constructors of its subclasses are
    declared in [parameter.py], which is not among the sources: they are
    parameters of the development.  [Position_from_parameter p] stands for
    [Position(p)], [Position_from_position v] for [Position(position=v)],
    [LimitationTime_from_raw r] for [LimitationTime(limit_raw=r)].  The
    constructors that take a plain integer validate it and may reject it:
    [None] stands for the [PyVLXException] they raise then. *)
Class ParameterCodec : Type := {
  Parameter_MAX : Z;
  Parameter_ON : Z;
  Parameter_OFF : Z;
  Position_from_parameter : Z -> Position.t;
  Position_from_position : Z -> option Position.t;
  Intensity_from_parameter : Z -> Intensity.t;
  SwitchParameter_from_parameter : Z -> SwitchParameter.t;
  LimitationTime_from_raw : Z -> option LimitationTime.t
}.

(** "No feed-back value known", the value the gateway sends for parameters it
    has no reading of (comment in [process_frame]). *)
Definition UNKNOWN_VALUE : Z := 0xF7FF.

(** The integers [Position(position=v)] accepts in the codec of the
    examples: the range up to [0xC800] and the reserved values ("unknown",
    "current", "target", "ignore"); any other integer is rejected with
    [PyVLXException("value_out_of_range")]. *)
Definition is_valid_int (v : Z) : bool :=
  ((0 <=? v) && (v <=? 0xC800))
  || (v =? UNKNOWN_VALUE) || (v =? 0xD200) || (v =? 0xD100) || (v =? 0xD400).

(** The codec of the KLF 200 gateway as the examples use it: raw values are
    16-bit integers read as they are, and [Parameter.MAX] is [0xC800]. *)
Definition klf200 : ParameterCodec := {|
  Parameter_MAX := 0xC800;
  Parameter_ON := 0x0000;
  Parameter_OFF := 0xC800;
  Position_from_parameter := Position.Build;
  Position_from_position :=
    fun v => if is_valid_int v then Some (Position.Build v) else None;
  Intensity_from_parameter := Intensity.Build;
  SwitchParameter_from_parameter := SwitchParameter.Build;
  LimitationTime_from_raw := fun r => Some (LimitationTime.Build r)
|}.

(** ** Operating state ([pyvlx/const.py], external) *)

Inductive OperatingState : Type :=
  | EXECUTING
  | DONE
  | OTHER_STATE (code : Z).

Definition OperatingState_eqb (a b : OperatingState) : bool :=
  match a, b with
  | EXECUTING, EXECUTING => true
  | DONE, DONE => true
  | OTHER_STATE x, OTHER_STATE y => x =? y
  | _, _ => false
  end.

(** ** Frames ([pyvlx/api/frames], external) *)

Module NodeState.
(** Payload shared by [FrameGetAllNodesInformationNotification] and
    [FrameNodeStatePositionChangedNotification]. *)
Record t : Type := Build {
    node_id : Z;
    current_position : Z;
    target : Z;
    state : OperatingState;
    remaining_time : Z
  }.
End NodeState.

Module StatusRequest.
Record t : Type := Build {
    node_id : Z;
    parameter_data : gmap Z Z   (* NodeParameter value -> raw parameter *)
  }.
End StatusRequest.

Module LimitationStatus.
Record t : Type := Build {
    node_id : Z;
    max_value : Z;
    min_value : Z;
    limit_originator : Z;
    limit_time : Z
  }.
End LimitationStatus.

Inductive Frame : Type :=
  | FrameGetAllNodesInformationNotification (f : NodeState.t)
  | FrameNodeStatePositionChangedNotification (f : NodeState.t)
  | FrameStatusRequestNotification (f : StatusRequest.t)
  | FrameGetLimitationStatusNotification (f : LimitationStatus.t)
  | FrameOther.

(** ** Nodes *)

(** The classes a registered node can be an instance of.  [Blind] derives
    from [OpeningDevice]; [OpeningDevice_cls] is any opening device that is
    not a blind (window, roller shutter, ...); [Node_cls] is any other node. *)
Inductive NodeClass : Type :=
  | Blind_cls
  | OpeningDevice_cls
  | LighteningDevice_cls
  | OnOffSwitch_cls
  | Node_cls.

Record Node : Type := BuildNode {
  class_of : NodeClass;
  position : Position.t;
  target : Position.t;
  orientation : Position.t;
  is_opening : bool;
  is_closing : bool;
  state_received_at : option Z;
  estimated_completion : option Z;
  limitation_max : Position.t;
  limitation_min : Position.t;
  limitation_originator : Z;
  limitation_time : LimitationTime.t;
  target_position : option Position.t;  (* [None]: attribute never assigned *)
  intensity : Intensity.t;
  parameter : SwitchParameter.t
}.

Definition isinstance_Blind (n : Node) : bool :=
  match class_of n with Blind_cls => true | _ => false end.

Definition isinstance_OpeningDevice (n : Node) : bool :=
  match class_of n with Blind_cls | OpeningDevice_cls => true | _ => false end.

Definition isinstance_LighteningDevice (n : Node) : bool :=
  match class_of n with LighteningDevice_cls => true | _ => false end.

Definition isinstance_OnOffSwitch (n : Node) : bool :=
  match class_of n with OnOffSwitch_cls => true | _ => false end.

(** Attribute assignment [node.f = v], one function per assigned field. *)

Definition set_position (v : Position.t) (n : Node) : Node :=
  BuildNode (class_of n) v (target n) (orientation n) (is_opening n)
    (is_closing n) (state_received_at n) (estimated_completion n)
    (limitation_max n) (limitation_min n) (limitation_originator n)
    (limitation_time n) (target_position n) (intensity n) (parameter n).

Definition set_target (v : Position.t) (n : Node) : Node :=
  BuildNode (class_of n) (position n) v (orientation n) (is_opening n)
    (is_closing n) (state_received_at n) (estimated_completion n)
    (limitation_max n) (limitation_min n) (limitation_originator n)
    (limitation_time n) (target_position n) (intensity n) (parameter n).

Definition set_orientation (v : Position.t) (n : Node) : Node :=
  BuildNode (class_of n) (position n) (target n) v (is_opening n)
    (is_closing n) (state_received_at n) (estimated_completion n)
    (limitation_max n) (limitation_min n) (limitation_originator n)
    (limitation_time n) (target_position n) (intensity n) (parameter n).

Definition set_is_opening (v : bool) (n : Node) : Node :=
  BuildNode (class_of n) (position n) (target n) (orientation n) v
    (is_closing n) (state_received_at n) (estimated_completion n)
    (limitation_max n) (limitation_min n) (limitation_originator n)
    (limitation_time n) (target_position n) (intensity n) (parameter n).

Definition set_is_closing (v : bool) (n : Node) : Node :=
  BuildNode (class_of n) (position n) (target n) (orientation n)
    (is_opening n) v (state_received_at n) (estimated_completion n)
    (limitation_max n) (limitation_min n) (limitation_originator n)
    (limitation_time n) (target_position n) (intensity n) (parameter n).

Definition set_state_received_at (v : option Z) (n : Node) : Node :=
  BuildNode (class_of n) (position n) (target n) (orientation n)
    (is_opening n) (is_closing n) v (estimated_completion n)
    (limitation_max n) (limitation_min n) (limitation_originator n)
    (limitation_time n) (target_position n) (intensity n) (parameter n).

Definition set_estimated_completion (v : option Z) (n : Node) : Node :=
  BuildNode (class_of n) (position n) (target n) (orientation n)
    (is_opening n) (is_closing n) (state_received_at n) v
    (limitation_max n) (limitation_min n) (limitation_originator n)
    (limitation_time n) (target_position n) (intensity n) (parameter n).

Definition set_limitation_max (v : Position.t) (n : Node) : Node :=
  BuildNode (class_of n) (position n) (target n) (orientation n)
    (is_opening n) (is_closing n) (state_received_at n)
    (estimated_completion n) v (limitation_min n) (limitation_originator n)
    (limitation_time n) (target_position n) (intensity n) (parameter n).

Definition set_limitation_min (v : Position.t) (n : Node) : Node :=
  BuildNode (class_of n) (position n) (target n) (orientation n)
    (is_opening n) (is_closing n) (state_received_at n)
    (estimated_completion n) (limitation_max n) v (limitation_originator n)
    (limitation_time n) (target_position n) (intensity n) (parameter n).

Definition set_limitation_originator (v : Z) (n : Node) : Node :=
  BuildNode (class_of n) (position n) (target n) (orientation n)
    (is_opening n) (is_closing n) (state_received_at n)
    (estimated_completion n) (limitation_max n) (limitation_min n) v
    (limitation_time n) (target_position n) (intensity n) (parameter n).

Definition set_limitation_time (v : LimitationTime.t) (n : Node) : Node :=
  BuildNode (class_of n) (position n) (target n) (orientation n)
    (is_opening n) (is_closing n) (state_received_at n)
    (estimated_completion n) (limitation_max n) (limitation_min n)
    (limitation_originator n) v (target_position n) (intensity n)
    (parameter n).

Definition set_target_position (v : Position.t) (n : Node) : Node :=
  BuildNode (class_of n) (position n) (target n) (orientation n)
    (is_opening n) (is_closing n) (state_received_at n)
    (estimated_completion n) (limitation_max n) (limitation_min n)
    (limitation_originator n) (limitation_time n) (Some v) (intensity n)
    (parameter n).

Definition set_intensity (v : Intensity.t) (n : Node) : Node :=
  BuildNode (class_of n) (position n) (target n) (orientation n)
    (is_opening n) (is_closing n) (state_received_at n)
    (estimated_completion n) (limitation_max n) (limitation_min n)
    (limitation_originator n) (limitation_time n) (target_position n) v
    (parameter n).

Definition set_parameter (v : SwitchParameter.t) (n : Node) : Node :=
  BuildNode (class_of n) (position n) (target n) (orientation n)
    (is_opening n) (is_closing n) (state_received_at n)
    (estimated_completion n) (limitation_max n) (limitation_min n)
    (limitation_originator n) (limitation_time n) (target_position n)
    (intensity n) v.

(** ** The world a call acts on, and what a call results in *)

Record World : Type := BuildWorld {
  nodes : gmap Z Node;             (* [self.pyvlx.nodes] *)
  after_update_calls : list Z      (* identifiers, in order of invocation *)
}.

(** The node object registered under [node_id] now has the fields of [n]. *)
Definition store (node_id : Z) (n : Node) (w : World) : World :=
  BuildWorld (<[node_id := n]> (nodes w)) (after_update_calls w).

(** [await node.after_update()] for the node registered under [node_id]. *)
Definition after_update (node_id : Z) (w : World) : World :=
  BuildWorld (nodes w) (after_update_calls w ++ [node_id]).

Inductive exn : Type :=
  | NameError (name : string)
  | PyVLXException.

Inductive result : Type :=
  | Return (w : World)
  | Raise (e : exn) (w : World).

Definition world_of (r : result) : World :=
  match r with Return w | Raise _ w => w end.

Definition raises (r : result) : bool :=
  match r with Return _ => false | Raise _ _ => true end.

(** The names bound at module level in [node_updater.py]: its imports
    (lines 2-13) and the class it defines.  A name outside this list (and
    outside the builtins) raises [NameError] when it is evaluated. *)
Definition module_globals : list string :=
  [ "datetime"; "TYPE_CHECKING"; "Any";
    "FrameGetAllNodesInformationNotification";
    "FrameGetLimitationStatusNotification";
    "FrameNodeStatePositionChangedNotification";
    "FrameStatusRequestNotification";
    "NodeParameter"; "OperatingState";
    "LighteningDevice";
    "PYVLXLOG";
    "Blind"; "OpeningDevice";
    "Intensity"; "LimitationTime"; "Parameter"; "Position";
    "NodeUpdater" ]%string.

Definition name_bound (name : string) : bool :=
  existsb (String.eqb name) module_globals.

(** ** [class NodeUpdater] *)

Section NodeUpdater.
Context `{codec : ParameterCodec}.

(** [v <= Parameter.MAX], the range check of the module. *)
Definition in_valid_range (v : Z) : bool := v <=? Parameter_MAX.

(** *** [process_frame_status_request_notification] (lines 23-44) *)

Definition process_frame_status_request_notification
    (frame : StatusRequest.t) (w : World) : result :=
  let node_id := StatusRequest.node_id frame in
  match nodes w !! node_id with
  | None => Return w
  | Some node =>
      if isinstance_Blind node then
        match StatusRequest.parameter_data frame !! 0 with
        | None => Return w                        (* MP missing in frame *)
        | Some mp =>
            match StatusRequest.parameter_data frame !! 3 with
            | None => Return w                    (* FP3 missing in frame *)
            | Some fp3 =>
                let position := Position_from_parameter mp in
                let orientation := Position_from_parameter fp3 in
                let node :=
                  if Position.position position <=? Parameter_MAX
                  then set_position position node else node in
                let node :=
                  if Position.position orientation <=? Parameter_MAX
                  then set_orientation orientation node else node in
                Return (after_update node_id (store node_id node w))
            end
        end
      else Return w
  end.

(** *** [process_frame_limitation_status_notification] (lines 46-57) *)

Definition process_frame_limitation_status_notification
    (frame : LimitationStatus.t) (w : World) : result :=
  let node_id := LimitationStatus.node_id frame in
  match nodes w !! node_id with
  | None => Return w
  | Some node =>
      if isinstance_OpeningDevice node then
        match Position_from_position (LimitationStatus.max_value frame) with
        | None => Raise PyVLXException (store node_id node w)
        | Some max =>
            let node := set_limitation_max max node in
            match Position_from_position (LimitationStatus.min_value frame)
            with
            | None => Raise PyVLXException (store node_id node w)
            | Some min =>
                let node := set_limitation_min min node in
                let node :=
                  set_limitation_originator
                    (LimitationStatus.limit_originator frame) node in
                match LimitationTime_from_raw
                        (LimitationStatus.limit_time frame) with
                | None => Raise PyVLXException (store node_id node w)
                | Some time =>
                    let node := set_limitation_time time node in
                    Return (after_update node_id (store node_id node w))
                end
            end
        end
      else Return w
  end.

(** The three constructor calls of lines 53-56 all accept their argument. *)
Definition constructors_accept (frame : LimitationStatus.t) : bool :=
  match Position_from_position (LimitationStatus.max_value frame),
        Position_from_position (LimitationStatus.min_value frame),
        LimitationTime_from_raw (LimitationStatus.limit_time frame) with
  | Some _, Some _, Some _ => true
  | _, _, _ => false
  end.

(** A frame none of whose values a constructor rejects. *)
Definition frame_accepted (frame : Frame) : bool :=
  match frame with
  | FrameGetLimitationStatusNotification f => constructors_accept f
  | _ => true
  end.

(** *** [process_frame], "Set opening device status" (lines 79-116) *)

(** [(frame.state == OperatingState.EXECUTING) or frame.remaining_time > 0] *)
Definition time_signal (frame : NodeState.t) : bool :=
  OperatingState_eqb (NodeState.state frame) EXECUTING
  || (NodeState.remaining_time frame >? 0).

(** Condition of the [if] at line 80. *)
Definition opening_condition
    (frame : NodeState.t) (position target : Position.t) : bool :=
  ((Position.position position >? Position.position target)
   && (Position.position target <=? Parameter_MAX))
  && time_signal frame.

(** Condition of the [elif] at line 94. *)
Definition closing_condition
    (frame : NodeState.t) (position target : Position.t) : bool :=
  ((Position.position position <? Position.position target)
   && (Position.position target <=? Parameter_MAX))
  && time_signal frame.

(** Lines 84-90 and 98-104: the timestamps written when motion starts. *)
Definition set_timestamps (now : Z) (frame : NodeState.t) (node : Node)
    : Node :=
  let node := set_state_received_at (Some now) node in
  set_estimated_completion (Some (now + NodeState.remaining_time frame)) node.

(** Lines 109-113. *)
Definition stop_opening (node : Node) : Node :=
  if is_opening node then
    let node := set_is_opening false node in
    let node := set_state_received_at None node in
    set_estimated_completion None node
  else node.

(** Lines 114-116. *)
Definition stop_closing (node : Node) : Node :=
  if is_closing node then set_is_closing false node else node.

Definition set_opening_device_status
    (now : Z) (frame : NodeState.t) (position target : Position.t)
    (node : Node) : Node :=
  if opening_condition frame position target then
    set_timestamps now frame (set_is_opening true node)
  else if closing_condition frame position target then
    set_timestamps now frame (set_is_closing true node)
  else
    stop_closing (stop_opening node).

(** *** [process_frame], "Set main parameter" (lines 119-155) *)

(** Body of the first [isinstance(node, OpeningDevice)] branch (120-131). *)
Definition opening_device_branch
    (node_id : Z) (position target : Position.t) (node : Node) (w : World)
    : result :=
  let node :=
    if Position.position position <=? Parameter_MAX
    then set_target target (set_position position node) else node in
  Return (after_update node_id (store node_id node w)).

(** Body of the second [isinstance(node, OpeningDevice)] branch (133-138). *)
Definition opening_device_second_branch
    (node_id : Z) (frame : NodeState.t) (position : Position.t)
    (node : Node) (w : World) : result :=
  let node :=
    if Position.position position <=? Parameter_MAX
    then set_position position node else node in
  let target_position := Position_from_parameter (NodeState.target frame) in
  let node :=
    if Position.position target_position <=? Parameter_MAX
    then set_target_position target_position node else node in
  Return (after_update node_id (store node_id node w)).

(** Body of the [isinstance(node, LighteningDevice)] branch (140-144). *)
Definition lightening_device_branch
    (node_id : Z) (frame : NodeState.t) (node : Node) (w : World) : result :=
  let intensity :=
    Intensity_from_parameter (NodeState.current_position frame) in
  let node :=
    if Intensity.intensity intensity <=? Parameter_MAX
    then set_intensity intensity node else node in
  Return (after_update node_id (store node_id node w)).

(** Body of the [isinstance(node, OnOffSwitch)] branch (146-155).  It
    evaluates the name [SwitchParameter] first. *)
Definition on_off_switch_branch
    (node_id : Z) (frame : NodeState.t) (node : Node) (w : World) : result :=
  if name_bound "SwitchParameter" then
    let state :=
      SwitchParameter_from_parameter (NodeState.current_position frame) in
    let target := SwitchParameter_from_parameter (NodeState.target frame) in
    if SwitchParameter.state state =? SwitchParameter.state target then
      let node :=
        if SwitchParameter.state state =? Parameter_ON
        then set_parameter state node
        else if SwitchParameter.state state =? Parameter_OFF
        then set_parameter state node
        else node in
      Return (after_update node_id (store node_id node w))
    else Return (store node_id node w)
  else Raise (NameError "SwitchParameter") (store node_id node w).

(** The [if]/[elif] chain of lines 119-155.  The last test evaluates the
    name [OnOffSwitch] before [isinstance] is called. *)
Definition set_main_parameter
    (node_id : Z) (frame : NodeState.t) (position target : Position.t)
    (node : Node) (w : World) : result :=
  if isinstance_OpeningDevice node then
    opening_device_branch node_id position target node w
  else if isinstance_OpeningDevice node then
    opening_device_second_branch node_id frame position node w
  else if isinstance_LighteningDevice node then
    lightening_device_branch node_id frame node w
  else if name_bound "OnOffSwitch" then
    if isinstance_OnOffSwitch node then
      on_off_switch_branch node_id frame node w
    else Return (store node_id node w)
  else Raise (NameError "OnOffSwitch") (store node_id node w).

(** The chain with its second branch taken out, for comparison. *)
Definition set_main_parameter_pruned
    (node_id : Z) (frame : NodeState.t) (position target : Position.t)
    (node : Node) (w : World) : result :=
  if isinstance_OpeningDevice node then
    opening_device_branch node_id position target node w
  else if isinstance_LighteningDevice node then
    lightening_device_branch node_id frame node w
  else if name_bound "OnOffSwitch" then
    if isinstance_OnOffSwitch node then
      on_off_switch_branch node_id frame node w
    else Return (store node_id node w)
  else Raise (NameError "OnOffSwitch") (store node_id node w).

(** Lines 68-155: the handling of the two node-state notifications. *)
Definition process_node_state
    (now : Z) (frame : NodeState.t) (w : World) : result :=
  let node_id := NodeState.node_id frame in
  match nodes w !! node_id with
  | None => Return w
  | Some node =>
      let position :=
        Position_from_parameter (NodeState.current_position frame) in
      let target := Position_from_parameter (NodeState.target frame) in
      let node :=
        if isinstance_OpeningDevice node
        then set_opening_device_status now frame position target node
        else node in
      set_main_parameter node_id frame position target node w
  end.

(** *** [process_frame] (lines 59-159) *)

Definition process_frame (now : Z) (frame : Frame) (w : World) : result :=
  match frame with
  | FrameGetAllNodesInformationNotification f
  | FrameNodeStatePositionChangedNotification f =>
      process_node_state now f w
  | FrameStatusRequestNotification f =>
      process_frame_status_request_notification f w
  | FrameGetLimitationStatusNotification f =>
      process_frame_limitation_status_notification f w
  | FrameOther => Return w
  end.

(** Notifications processed one after the other, each with the clock reading
    at its arrival; an exception ends the run. *)
Fixpoint process_frames (frames : list (Z * Frame)) (w : World) : result :=
  match frames with
  | [] => Return w
  | (now, frame) :: rest =>
      match process_frame now frame w with
      | Return w' => process_frames rest w'
      | Raise e w' => Raise e w'
      end
  end.

End NodeUpdater.

(** ** A small installation, for the examples *)

(** A freshly registered node of class [c]: nothing known, nothing moving. *)
Definition fresh_node (c : NodeClass) : Node :=
  BuildNode c
    (Position.Build UNKNOWN_VALUE) (Position.Build UNKNOWN_VALUE)
    (Position.Build UNKNOWN_VALUE)
    false false None None
    (Position.Build 0xC800) (Position.Build 0) 255 (LimitationTime.Build 0)
    None (Intensity.Build UNKNOWN_VALUE) (SwitchParameter.Build UNKNOWN_VALUE).

(** Node 1 a window, node 2 a blind, node 3 a light, node 4 a switch. *)
Definition home : World :=
  BuildWorld
    (<[1 := fresh_node OpeningDevice_cls]>
       (<[2 := fresh_node Blind_cls]>
          (<[3 := fresh_node LighteningDevice_cls]>
             (<[4 := fresh_node OnOffSwitch_cls]> ∅))))
    [].

(** 40 %, 70 % and 20 % of the way, in raw units ([0xC800] is 100 %). *)
Definition raw_40 : Z := 20480.
Definition raw_70 : Z := 35840.
Definition raw_20 : Z := 10240.

(** Node 1 at 40 % heading for 70 %, executing, 30 s to go. *)
Definition frame_closing : Frame :=
  FrameNodeStatePositionChangedNotification
    (NodeState.Build 1 raw_40 raw_70 EXECUTING 30).

(** Node 1 at 40 % heading for 20 %, executing, 20 s to go. *)
Definition frame_opening : Frame :=
  FrameNodeStatePositionChangedNotification
    (NodeState.Build 1 raw_40 raw_20 EXECUTING 20).

(** Node 1 arrived at 70 %, done, nothing remaining. *)
Definition frame_arrived : Frame :=
  FrameNodeStatePositionChangedNotification
    (NodeState.Build 1 raw_70 raw_70 DONE 0).

(** Node 1 at 40 % with no feedback on its target. *)
Definition frame_target_unknown : Frame :=
  FrameNodeStatePositionChangedNotification
    (NodeState.Build 1 raw_40 UNKNOWN_VALUE DONE 0).


(** The switch, node 4, reported off and settled. *)
Definition frame_switch : Frame :=
  FrameNodeStatePositionChangedNotification
    (NodeState.Build 4 0xC800 0xC800 DONE 0).

(** Limitation of node 1 with no feedback on the upper bound. *)
Definition frame_limitation : Frame :=
  FrameGetLimitationStatusNotification
    (LimitationStatus.Build 1 UNKNOWN_VALUE 0 1 253).

(** Limitation of node 1 with an upper bound, [0xD000], that is neither in
    the range nor a reserved value. *)
Definition frame_limitation_rejected : Frame :=
  FrameGetLimitationStatusNotification
    (LimitationStatus.Build 1 0xD000 0 1 253).

(** Limitation of node 1 with upper bound 70 % and such a lower bound. *)
Definition frame_limitation_min_rejected : Frame :=
  FrameGetLimitationStatusNotification
    (LimitationStatus.Build 1 raw_70 0xD000 1 253).

(** Status of the blind, node 2: main parameter 55 (raw), FP3 unknown. *)
Definition frame_status : Frame :=
  FrameStatusRequestNotification
    (StatusRequest.Build 2 (<[0 := 55]> (<[3 := UNKNOWN_VALUE]> ∅))).

(** The same without FP3. *)
Definition frame_status_no_fp3 : Frame :=
  FrameStatusRequestNotification (StatusRequest.Build 2 (<[0 := 55]> ∅)).

(** Notifications of the four kinds for an identifier nobody registered. *)
Definition frames_stranger : list Frame :=
  [ FrameNodeStatePositionChangedNotification
      (NodeState.Build 9 raw_40 raw_70 EXECUTING 30);
    FrameGetAllNodesInformationNotification
      (NodeState.Build 9 raw_40 raw_70 EXECUTING 30);
    FrameStatusRequestNotification
      (StatusRequest.Build 9 (<[0 := 55]> (<[3 := 55]> ∅)));
    FrameGetLimitationStatusNotification
      (LimitationStatus.Build 9 UNKNOWN_VALUE 0 1 253) ].

(** The node identifier a frame carries, if it is one of the four kinds. *)
Definition frame_node_id (frame : Frame) : option Z :=
  match frame with
  | FrameGetAllNodesInformationNotification f
  | FrameNodeStatePositionChangedNotification f => Some (NodeState.node_id f)
  | FrameStatusRequestNotification f => Some (StatusRequest.node_id f)
  | FrameGetLimitationStatusNotification f =>
      Some (LimitationStatus.node_id f)
  | FrameOther => None
  end.

(** The node registered under [node_id] once the call is over. *)
Definition node_after (r : result) (node_id : Z) : option Node :=
  nodes (world_of r) !! node_id.

(** The installation once node 1 has started closing, resp. opening, at
    time 100. *)
Definition home_closing : World :=
  world_of (process_frame (codec := klf200) 100 frame_closing home).

Definition home_opening : World :=
  world_of (process_frame (codec := klf200) 100 frame_opening home).

(** Node 1 in these two installations. *)
Definition window_closing : Node :=
  default (fresh_node OpeningDevice_cls) (nodes home_closing !! 1).

Definition window_opening : Node :=
  default (fresh_node OpeningDevice_cls) (nodes home_opening !! 1).

(** The light, node 3, at half intensity; and without feedback. *)
Definition frame_light : Frame :=
  FrameNodeStatePositionChangedNotification
    (NodeState.Build 3 25600 25600 DONE 0).

Definition frame_light_unknown : Frame :=
  FrameGetAllNodesInformationNotification
    (NodeState.Build 3 UNKNOWN_VALUE UNKNOWN_VALUE DONE 0).

(** A status request for the window, node 1, with both parameters. *)
Definition frame_status_window : Frame :=
  FrameStatusRequestNotification
    (StatusRequest.Build 1 (<[0 := 55]> (<[3 := 77]> ∅))).

(** A limitation notification for the light, node 3. *)
Definition frame_limitation_light : Frame :=
  FrameGetLimitationStatusNotification
    (LimitationStatus.Build 3 0xC800 0 1 253).

(** The installation without its switch. *)
Definition home_without_switch : World :=
  BuildWorld
    (<[1 := fresh_node OpeningDevice_cls]>
       (<[2 := fresh_node Blind_cls]>
          (<[3 := fresh_node LighteningDevice_cls]> ∅)))
    [].

(** A day's worth of notifications for that installation. *)
Definition busy_day : list (Z * Frame) :=
  [ (100, frame_closing); (110, frame_opening); (125, frame_arrived);
    (130, frame_light); (131, frame_light_unknown); (140, frame_status);
    (150, frame_limitation); (160, frame_target_unknown);
    (170, frame_switch); (180, FrameOther) ].

(** The motion state of a node: flags and timestamps. *)
Definition motion_state (n : Node) : bool * bool * option Z * option Z :=
  (is_opening n, is_closing n, state_received_at n, estimated_completion n).

(** Node 1 of the installation without switch, after the day, and after the
    first two notifications of the day. *)
Definition window_evening : Node :=
  default (fresh_node OpeningDevice_cls)
    (node_after (process_frames (codec := klf200) busy_day
                   home_without_switch) 1).

Definition window_reversed : Node :=
  default (fresh_node OpeningDevice_cls)
    (node_after (process_frames (codec := klf200) (take 2 busy_day)
                   home_without_switch) 1).

(** * Properties *)

(** ** Reading the registry after a call *)

Section Registry.

Lemma node_after_commit (node_id : Z) (n : Node) (w : World) :
  node_after (Return (after_update node_id (store node_id n w))) node_id
  = Some n.
Proof. unfold node_after; simpl. apply lookup_insert_eq. Qed.

Lemma node_after_commit_ne (node_id other : Z) (n : Node) (w : World) :
  node_id <> other ->
  node_after (Return (after_update node_id (store node_id n w))) other
  = nodes w !! other.
Proof. intros Hne. unfold node_after; simpl. by apply lookup_insert_ne. Qed.

Lemma store_same (node_id : Z) (n : Node) (w : World) :
  nodes w !! node_id = Some n -> store node_id n w = w.
Proof.
  intros Hn. destruct w as [ns calls]; unfold store; simpl in *.
  f_equal. by apply insert_id.
Qed.

Lemma calls_after_commit (node_id : Z) (n : Node) (w : World) :
  after_update_calls (after_update node_id (store node_id n w))
  = after_update_calls w ++ [node_id].
Proof. reflexivity. Qed.

End Registry.

(** ** The conditions of the motion inference, as propositions *)

Section Conditions.
Context `{codec : ParameterCodec}.

Lemma OperatingState_eqb_EXECUTING (s : OperatingState) :
  OperatingState_eqb s EXECUTING = true <-> s = EXECUTING.
Proof. destruct s; simpl; split; congruence. Qed.

Lemma time_signal_iff (f : NodeState.t) :
  time_signal f = true
  <-> NodeState.state f = EXECUTING \/ NodeState.remaining_time f > 0.
Proof.
  unfold time_signal. rewrite orb_true_iff, OperatingState_eqb_EXECUTING.
  rewrite Z.gtb_ltb, Z.ltb_lt. intuition lia.
Qed.

Lemma opening_condition_iff (f : NodeState.t) (position target : Position.t) :
  opening_condition f position target = true
  <-> Position.position position > Position.position target
      /\ Position.position target <= Parameter_MAX
      /\ (NodeState.state f = EXECUTING \/ NodeState.remaining_time f > 0).
Proof.
  unfold opening_condition.
  rewrite !andb_true_iff, time_signal_iff, Z.gtb_ltb, Z.ltb_lt, Z.leb_le.
  intuition lia.
Qed.

Lemma closing_condition_iff (f : NodeState.t) (position target : Position.t) :
  closing_condition f position target = true
  <-> Position.position position < Position.position target
      /\ Position.position target <= Parameter_MAX
      /\ (NodeState.state f = EXECUTING \/ NodeState.remaining_time f > 0).
Proof.
  unfold closing_condition.
  rewrite !andb_true_iff, time_signal_iff, Z.ltb_lt, Z.leb_le.
  intuition lia.
Qed.

Lemma conditions_exclusive (f : NodeState.t) (position target : Position.t) :
  opening_condition f position target = true ->
  closing_condition f position target = false.
Proof.
  intros Ho. apply not_true_is_false. intros Hc.
  apply opening_condition_iff in Ho. apply closing_condition_iff in Hc. lia.
Qed.

(** What a node-state notification does to an opening device, in one
    equation: motion inference, then the main parameter, then the hook. *)
Lemma process_node_state_opening_device
    (now : Z) (f : NodeState.t) (w : World) (node : Node) :
  nodes w !! NodeState.node_id f = Some node ->
  isinstance_OpeningDevice node = true ->
  let position :=
    Position_from_parameter (NodeState.current_position f) in
  let target := Position_from_parameter (NodeState.target f) in
  let moved := set_opening_device_status now f position target node in
  process_node_state now f w
  = Return (after_update (NodeState.node_id f)
      (store (NodeState.node_id f)
         (if Position.position position <=? Parameter_MAX
          then set_target target (set_position position moved) else moved)
         w)).
Proof.
  intros Hn Hc. unfold process_node_state. rewrite Hn. simpl.
  rewrite Hc. unfold set_main_parameter.
  assert (Hc' : isinstance_OpeningDevice
                  (set_opening_device_status now f
                     (Position_from_parameter (NodeState.current_position f))
                     (Position_from_parameter (NodeState.target f)) node)
                = true).
  { unfold set_opening_device_status, set_timestamps, stop_closing,
      stop_opening.
    repeat case_match; exact Hc. }
  rewrite Hc'. reflexivity.
Qed.

(** The main-parameter step leaves flags and timestamps as the motion
    inference set them. *)
Lemma main_parameter_keeps_motion (b : bool) (p t : Position.t) (n : Node) :
  let n' := if b then set_target t (set_position p n) else n in
  is_opening n' = is_opening n /\ is_closing n' = is_closing n
  /\ state_received_at n' = state_received_at n
  /\ estimated_completion n' = estimated_completion n.
Proof. destruct b; simpl; auto. Qed.

(** The three branches of the motion inference, on the node alone. *)
Lemma set_opening_device_status_cases
    (now : Z) (f : NodeState.t) (position target : Position.t) (node : Node) :
  let n' := set_opening_device_status now f position target node in
  (opening_condition f position target = true ->
     is_opening n' = true /\ is_closing n' = is_closing node
     /\ state_received_at n' = Some now
     /\ estimated_completion n' = Some (now + NodeState.remaining_time f))
  /\ (closing_condition f position target = true ->
      is_closing n' = true /\ is_opening n' = is_opening node
      /\ state_received_at n' = Some now
      /\ estimated_completion n' = Some (now + NodeState.remaining_time f))
  /\ (opening_condition f position target = false ->
      closing_condition f position target = false ->
      n' = stop_closing (stop_opening node)).
Proof.
  unfold set_opening_device_status.
  destruct (opening_condition f position target) eqn:Eopen.
  - rewrite (conditions_exclusive _ _ _ Eopen).
    repeat split; try reflexivity; discriminate.
  - destruct (closing_condition f position target);
      repeat split; try reflexivity; discriminate.
Qed.

Lemma stop_cases (node : Node) :
  let n' := stop_closing (stop_opening node) in
  is_opening n' = false /\ is_closing n' = false
  /\ state_received_at n'
     = (if is_opening node then None else state_received_at node)
  /\ estimated_completion n'
     = (if is_opening node then None else estimated_completion node)
  /\ state_received_at n' = state_received_at (stop_opening node)
  /\ estimated_completion n' = estimated_completion (stop_opening node).
Proof.
  destruct node as [c p t o opening closing r e lmax lmin lo lt tp i sw].
  destruct opening, closing; repeat split; reflexivity.
Qed.

End Conditions.

(** ** What a call does to the node registered under a given identifier *)

Section Effects.
Context `{codec : ParameterCodec}.

(** The motion inference touches flags and timestamps only. *)
Lemma motion_keeps_parameters
    (now : Z) (f : NodeState.t) (p t : Position.t) (n : Node) :
  let n' := set_opening_device_status now f p t n in
  position n' = position n /\ target n' = target n
  /\ orientation n' = orientation n /\ intensity n' = intensity n
  /\ target_position n' = target_position n.
Proof.
  unfold set_opening_device_status, set_timestamps, stop_closing,
    stop_opening.
  repeat case_match; repeat split; reflexivity.
Qed.

Lemma set_main_parameter_pruned_eq
    (i : Z) (f : NodeState.t) (p t : Position.t) (n : Node) (w : World) :
  set_main_parameter i f p t n w = set_main_parameter_pruned i f p t n w.
Proof.
  unfold set_main_parameter, set_main_parameter_pruned.
  destruct (isinstance_OpeningDevice n); reflexivity.
Qed.

Lemma set_main_parameter_elsewhere
    (i id : Z) (f : NodeState.t) (p t : Position.t) (n : Node) (w : World) :
  i <> id ->
  node_after (set_main_parameter i f p t n w) id = nodes w !! id.
Proof.
  intros Hne.
  unfold set_main_parameter, opening_device_branch,
    opening_device_second_branch, lightening_device_branch,
    on_off_switch_branch, node_after.
  repeat case_match; simpl; by apply lookup_insert_ne.
Qed.

Lemma set_main_parameter_here
    (i : Z) (f : NodeState.t) (p t : Position.t) (n : Node) (w : World) :
  exists n',
    node_after (set_main_parameter i f p t n w) i = Some n'
    /\ target_position n' = target_position n
    /\ orientation n' = orientation n
    /\ ((Position.position p <=? Parameter_MAX) = false ->
        position n' = position n /\ target n' = target n)
    /\ ((Intensity.intensity
           (Intensity_from_parameter (NodeState.current_position f))
         <=? Parameter_MAX) = false ->
        intensity n' = intensity n).
Proof.
  rewrite set_main_parameter_pruned_eq.
  unfold set_main_parameter_pruned, opening_device_branch,
    lightening_device_branch, on_off_switch_branch, node_after.
  repeat case_match; simpl; eexists;
    (split; [apply lookup_insert_eq |]);
    repeat split; try reflexivity; intros; congruence.
Qed.

Lemma process_node_state_at
    (now : Z) (f : NodeState.t) (w : World) (id : Z) (node : Node) :
  nodes w !! id = Some node ->
  exists n',
    node_after (process_node_state now f w) id = Some n'
    /\ target_position n' = target_position node
    /\ orientation n' = orientation node
    /\ ((Position.position
           (Position_from_parameter (NodeState.current_position f))
         <=? Parameter_MAX) = false ->
        position n' = position node /\ target n' = target node)
    /\ ((Intensity.intensity
           (Intensity_from_parameter (NodeState.current_position f))
         <=? Parameter_MAX) = false ->
        intensity n' = intensity node).
Proof.
  intros Hn. unfold process_node_state.
  destruct (decide (NodeState.node_id f = id)) as [<- | Hne].
  - rewrite Hn. simpl.
    set (pos := Position_from_parameter (NodeState.current_position f)).
    set (tgt := Position_from_parameter (NodeState.target f)).
    set (moved := if isinstance_OpeningDevice node
                  then set_opening_device_status now f pos tgt node
                  else node).
    assert (Hmoved : position moved = position node
                     /\ target moved = target node
                     /\ orientation moved = orientation node
                     /\ intensity moved = intensity node
                     /\ target_position moved = target_position node).
    { subst moved. destruct (isinstance_OpeningDevice node).
      - apply motion_keeps_parameters.
      - repeat split; reflexivity. }
    destruct Hmoved as (Hp & Ht & Ho & Hi & Htp).
    destruct (set_main_parameter_here (NodeState.node_id f) f pos tgt
                moved w) as (n' & Hn' & Htp' & Ho' & Hpos & Hint).
    exists n'. split; [exact Hn' |].
    rewrite <- Hp, <- Ht, <- Ho, <- Hi, <- Htp. auto.
  - destruct (nodes w !! NodeState.node_id f) as [other |] eqn:Eother.
    + simpl. rewrite set_main_parameter_elsewhere by exact Hne.
      exists node. repeat split; auto.
    + exists node. repeat split; auto.
Qed.

Lemma process_status_request_at
    (f : StatusRequest.t) (w : World) (id : Z) (node : Node) :
  nodes w !! id = Some node ->
  exists n',
    node_after (process_frame_status_request_notification f w) id = Some n'
    /\ target_position n' = target_position node
    /\ (forall mp, StatusRequest.parameter_data f !! 0 = Some mp ->
        (Position.position (Position_from_parameter mp) <=? Parameter_MAX)
        = false ->
        position n' = position node)
    /\ (forall fp3, StatusRequest.parameter_data f !! 3 = Some fp3 ->
        (Position.position (Position_from_parameter fp3) <=? Parameter_MAX)
        = false ->
        orientation n' = orientation node).
Proof.
  intros Hn. unfold process_frame_status_request_notification, node_after.
  destruct (decide (StatusRequest.node_id f = id)) as [<- | Hne].
  - rewrite Hn. simpl.
    repeat case_match; simpl; rewrite ?lookup_insert_eq; eexists;
      (split; [first [reflexivity | exact Hn] |]);
      repeat split; try reflexivity; intros; simplify_eq; congruence.
  - simpl. repeat case_match; simpl; rewrite ?lookup_insert_ne by exact Hne;
      exists node; repeat split; auto.
Qed.

Lemma process_limitation_status_at
    (f : LimitationStatus.t) (w : World) (id : Z) (node : Node) :
  nodes w !! id = Some node ->
  exists n',
    node_after (process_frame_limitation_status_notification f w) id = Some n'
    /\ target_position n' = target_position node.
Proof.
  intros Hn. unfold process_frame_limitation_status_notification, node_after.
  destruct (decide (LimitationStatus.node_id f = id)) as [<- | Hne].
  - rewrite Hn. simpl.
    repeat case_match; simpl; rewrite ?lookup_insert_eq; eauto.
  - simpl. repeat case_match; simpl; rewrite ?lookup_insert_ne by exact Hne;
      eauto.
Qed.

End Effects.

(** ** Motion inference *)

Section MotionInference.
Context `{codec : ParameterCodec}.

(** C4.  A node-state notification (either kind) addressed to an opening
    device: when position > target, the target is in the valid range and the
    frame carries a time signal (state EXECUTING or remaining time > 0), the
    node is opening afterwards, [state_received_at] is the current time and
    [estimated_completion] is that time plus the remaining time; when
    position < target under the same conditions, the node is closing with the
    same timestamps; each branch leaves the other flag as it was; and when
    neither condition holds no flag is raised and no timestamp is stamped:
    both flags are down and the timestamps are the old ones, or cleared if the
    node was opening. *)
Theorem motion_inference_rule
    (now : Z) (frame : Frame) (f : NodeState.t) (w : World) (node : Node) :
  frame = FrameNodeStatePositionChangedNotification f
  \/ frame = FrameGetAllNodesInformationNotification f ->
  nodes w !! NodeState.node_id f = Some node ->
  isinstance_OpeningDevice node = true ->
  let p :=
    Position.position (Position_from_parameter (NodeState.current_position f))
  in
  let t := Position.position (Position_from_parameter (NodeState.target f)) in
  let signal :=
    NodeState.state f = EXECUTING \/ NodeState.remaining_time f > 0 in
  let stamped (n : Node) :=
    state_received_at n = Some now
    /\ estimated_completion n = Some (now + NodeState.remaining_time f) in
  exists node',
    node_after (process_frame now frame w) (NodeState.node_id f) = Some node'
    /\ (p > t /\ t <= Parameter_MAX /\ signal ->
        is_opening node' = true /\ stamped node'
        /\ is_closing node' = is_closing node)
    /\ (p < t /\ t <= Parameter_MAX /\ signal ->
        is_closing node' = true /\ stamped node'
        /\ is_opening node' = is_opening node)
    /\ (~ (p > t /\ t <= Parameter_MAX /\ signal) ->
        ~ (p < t /\ t <= Parameter_MAX /\ signal) ->
        is_opening node' = false /\ is_closing node' = false
        /\ state_received_at node'
           = (if is_opening node then None else state_received_at node)
        /\ estimated_completion node'
           = (if is_opening node then None else estimated_completion node)).
Proof.
  intros Hkind Hn Hc p t signal stamped.
  assert (Hrun : process_frame now frame w = process_node_state now f w)
    by (destruct Hkind as [-> | ->]; reflexivity).
  rewrite Hrun, (process_node_state_opening_device now f w node Hn Hc).
  set (position := Position_from_parameter (NodeState.current_position f)).
  set (target := Position_from_parameter (NodeState.target f)).
  set (moved := set_opening_device_status now f position target node).
  eexists. split; [apply node_after_commit |].
  destruct (main_parameter_keeps_motion
              (Position.position position <=? Parameter_MAX)
              position target moved) as (Eo & Ec & Er & Ee).
  unfold stamped. rewrite Eo, Ec, Er, Ee. clear Eo Ec Er Ee.
  destruct (set_opening_device_status_cases now f position target node)
    as (Hopening & Hclosing & Hidle).
  fold moved in Hopening, Hclosing, Hidle.
  pose proof (opening_condition_iff f position target) as Hopen.
  pose proof (closing_condition_iff f position target) as Hclose.
  fold p t signal in Hopen, Hclose.
  split; [| split].
  - intros H. apply Hopen, Hopening in H. tauto.
  - intros H. apply Hclose, Hclosing in H. tauto.
  - intros Hno Hncl.
    rewrite Hidle.
    + pose proof (stop_cases node) as Hs. simpl in Hs. tauto.
    + apply not_true_is_false. tauto.
    + apply not_true_is_false. tauto.
Qed.

(** C6.  In the else branch of the motion inference (neither directional
    condition holds): a node that was opening has [is_opening],
    [state_received_at] and [estimated_completion] cleared; a node that was
    closing has [is_closing] cleared, and the closing-clear itself touches no
    timestamp: the timestamps after the call are those the opening-clear
    left, so a node that was closing and not opening keeps both. *)
Theorem idle_branch_clears_asymmetrically
    (now : Z) (frame : Frame) (f : NodeState.t) (w : World) (node : Node) :
  frame = FrameNodeStatePositionChangedNotification f
  \/ frame = FrameGetAllNodesInformationNotification f ->
  nodes w !! NodeState.node_id f = Some node ->
  isinstance_OpeningDevice node = true ->
  opening_condition f
    (Position_from_parameter (NodeState.current_position f))
    (Position_from_parameter (NodeState.target f)) = false ->
  closing_condition f
    (Position_from_parameter (NodeState.current_position f))
    (Position_from_parameter (NodeState.target f)) = false ->
  exists node',
    node_after (process_frame now frame w) (NodeState.node_id f) = Some node'
    /\ (is_opening node = true ->
        is_opening node' = false /\ state_received_at node' = None
        /\ estimated_completion node' = None)
    /\ (is_closing node = true -> is_closing node' = false)
    /\ state_received_at node' = state_received_at (stop_opening node)
    /\ estimated_completion node' = estimated_completion (stop_opening node)
    /\ (is_closing node = true -> is_opening node = false ->
        state_received_at node' = state_received_at node
        /\ estimated_completion node' = estimated_completion node).
Proof.
  intros Hkind Hn Hc Eopen Eclose.
  assert (Hrun : process_frame now frame w = process_node_state now f w)
    by (destruct Hkind as [-> | ->]; reflexivity).
  rewrite Hrun, (process_node_state_opening_device now f w node Hn Hc).
  set (position := Position_from_parameter (NodeState.current_position f)).
  set (target := Position_from_parameter (NodeState.target f)).
  set (moved := set_opening_device_status now f position target node).
  eexists. split; [apply node_after_commit |].
  destruct (main_parameter_keeps_motion
              (Position.position position <=? Parameter_MAX)
              position target moved) as (Eo & Ec & Er & Ee).
  rewrite Eo, Ec, Er, Ee. clear Eo Ec Er Ee.
  destruct (set_opening_device_status_cases now f position target node)
    as (_ & _ & Hidle).
  fold moved in Hidle. rewrite (Hidle Eopen Eclose).
  destruct (stop_cases node) as (Ho & Hcl & Hr & He & Hr' & He').
  rewrite Ho, Hcl, Hr, He.
  split; [intros ->; auto |].
  split; [auto |].
  split; [by rewrite <- Hr', Hr |].
  split; [by rewrite <- He', He |].
  intros _ ->. auto.
Qed.

End MotionInference.

(** The motion-inference rule at work: node 1 told to open, and node 1 told
    to close, at time 100. *)
Lemma motion_inference_rule_witness :
  (exists n,
     node_after (process_frame (codec := klf200) 100 frame_opening home) 1
     = Some n
     /\ is_opening n = true /\ state_received_at n = Some 100
     /\ estimated_completion n = Some 120)
  /\ (exists n,
        node_after (process_frame (codec := klf200) 100 frame_closing home) 1
        = Some n
        /\ is_closing n = true /\ state_received_at n = Some 100
        /\ estimated_completion n = Some 130).
Proof.
  split.
  - destruct (motion_inference_rule (codec := klf200) 100 frame_opening
                (NodeState.Build 1 raw_40 raw_20 EXECUTING 20) home
                (fresh_node OpeningDevice_cls)
                (or_introl eq_refl) eq_refl eq_refl)
      as (n & Hn & Hopen & _ & _).
    exists n. split; [exact Hn |].
    destruct Hopen as (Ho & (Hr & He) & _).
    + split; [reflexivity | split; [by vm_compute | left; reflexivity]].
    + repeat split; assumption.
  - destruct (motion_inference_rule (codec := klf200) 100 frame_closing
                (NodeState.Build 1 raw_40 raw_70 EXECUTING 30) home
                (fresh_node OpeningDevice_cls)
                (or_introl eq_refl) eq_refl eq_refl)
      as (n & Hn & _ & Hclose & _).
    exists n. split; [exact Hn |].
    destruct Hclose as (Hc & (Hr & He) & _).
    + split; [reflexivity | split; [by vm_compute | left; reflexivity]].
    + repeat split; assumption.
Defined.

(** The idle branch at work: node 1 reported arrived while it was opening
    (everything cleared), and while it was closing (flag cleared, timestamps
    of time 100 kept). *)
Lemma idle_branch_clears_asymmetrically_witness :
  (exists n,
     node_after (process_frame (codec := klf200) 125 frame_arrived
                   home_opening) 1 = Some n
     /\ is_opening n = false /\ state_received_at n = None
     /\ estimated_completion n = None)
  /\ (exists n,
        node_after (process_frame (codec := klf200) 125 frame_arrived
                      home_closing) 1 = Some n
        /\ is_closing n = false /\ state_received_at n = Some 100
        /\ estimated_completion n = Some 130).
Proof.
  split.
  - edestruct (idle_branch_clears_asymmetrically (codec := klf200) 125
                 frame_arrived (NodeState.Build 1 raw_70 raw_70 DONE 0)
                 home_opening window_opening (or_introl eq_refl))
      as (n & Hn & Hopen & _);
      [vm_compute; reflexivity | reflexivity | reflexivity | reflexivity |].
    exists n. split; [exact Hn |]. apply Hopen. reflexivity.
  - edestruct (idle_branch_clears_asymmetrically (codec := klf200) 125
                 frame_arrived (NodeState.Build 1 raw_70 raw_70 DONE 0)
                 home_closing window_closing (or_introl eq_refl))
      as (n & Hn & _ & Hclose & _ & _ & Hkeep);
      [vm_compute; reflexivity | reflexivity | reflexivity | reflexivity |].
    exists n. split; [exact Hn |].
    split; [apply Hclose; reflexivity |].
    apply Hkeep; reflexivity.
Defined.

(** ** Where the code departs from the invariants of the node model *)

(** C1.  Evaluation at the failing input: node 1, idle, is told to close at
    time 100 and, before any idle notification, to open at time 110.  The
    opening branch raises [is_opening] and does not lower [is_closing]: both
    flags are up after the second call. *)
Theorem reversal_raises_both_flags :
  (fun n => (is_opening n, is_closing n)) <$>
    node_after (process_frames (codec := klf200)
                  [(100, frame_closing); (110, frame_opening)] home) 1
  = Some (true, true).
Proof. vm_compute. reflexivity. Qed.

(** C5.  Evaluation at the failing input: node 1, idle, is told to close at
    time 100 with 30 s to go and is reported arrived at time 125.  The
    closing-clear lowers [is_closing] and leaves the timestamps: the node is
    neither opening nor closing and [estimated_completion] is still there. *)
Theorem arrival_after_closing_keeps_estimate :
  (fun n => (is_opening n, is_closing n, estimated_completion n)) <$>
    node_after (process_frames (codec := klf200)
                  [(100, frame_closing); (125, frame_arrived)] home) 1
  = Some (false, false, Some 130).
Proof. vm_compute. reflexivity. Qed.

(** C2.  Evaluation at the failing input: a node-state notification for the
    registered switch, node 4.  The node is neither an opening device nor a
    lightening device, so the chain evaluates the name [OnOffSwitch], which
    the module never imports: the call raises [NameError]. *)
Theorem switch_notification_raises_NameError :
  name_bound "OnOffSwitch" = false
  /\ nodes home !! 4 = Some (fresh_node OnOffSwitch_cls)
  /\ process_frame (codec := klf200) 0 frame_switch home
     = Raise (NameError "OnOffSwitch") home.
Proof. vm_compute. repeat split; reflexivity. Qed.

(** ** Range filtering *)


Section RangeFiltering.
Context `{codec : ParameterCodec}.


(** C8.  A status-request notification addressed to a blind: when the main
    parameter or functional parameter 3 is missing from the parameter map
    the call changes nothing and invokes no hook; when both are present,
    [position] is the decoded main parameter if that is in the valid range
    and is unchanged otherwise, [orientation] likewise for functional
    parameter 3, and the hook of the node is invoked exactly once. *)
Theorem status_request_on_blind
    (now : Z) (f : StatusRequest.t) (w : World) (node : Node) :
  nodes w !! StatusRequest.node_id f = Some node ->
  isinstance_Blind node = true ->
  (StatusRequest.parameter_data f !! 0 = None
   \/ StatusRequest.parameter_data f !! 3 = None ->
   process_frame now (FrameStatusRequestNotification f) w = Return w)
  /\ (forall mp fp3,
        StatusRequest.parameter_data f !! 0 = Some mp ->
        StatusRequest.parameter_data f !! 3 = Some fp3 ->
        exists w' node',
          process_frame now (FrameStatusRequestNotification f) w = Return w'
          /\ nodes w' !! StatusRequest.node_id f = Some node'
          /\ position node'
             = (if in_valid_range
                     (Position.position (Position_from_parameter mp))
                then Position_from_parameter mp else position node)
          /\ orientation node'
             = (if in_valid_range
                     (Position.position (Position_from_parameter fp3))
                then Position_from_parameter fp3 else orientation node)
          /\ after_update_calls w'
             = after_update_calls w ++ [StatusRequest.node_id f]).
Proof.
  intros Hn Hblind. simpl.
  unfold process_frame_status_request_notification, in_valid_range.
  rewrite Hn; simpl. rewrite Hblind. split.
  - intros [-> | ->]; [reflexivity |].
    destruct (StatusRequest.parameter_data f !! 0); reflexivity.
  - intros mp fp3 -> ->.
    eexists; eexists. split; [reflexivity |].
    split; [simpl; apply lookup_insert_eq |].
    repeat split; repeat case_match; reflexivity.
Qed.

(** C7, amended.  A limitation-status notification whose node is an opening
    device and whose upper bound, lower bound and time the parameter
    constructors accept: [limitation_max], [limitation_min],
    [limitation_originator] and [limitation_time] are afterwards the ones
    built from the payload, with no range check of the updater's own on any
    of them, and the hook of the node is invoked exactly once. *)
Theorem limitation_status_overwrites
    (now : Z) (f : LimitationStatus.t) (w : World) (node : Node)
    (max min : Position.t) (time : LimitationTime.t) :
  nodes w !! LimitationStatus.node_id f = Some node ->
  isinstance_OpeningDevice node = true ->
  Position_from_position (LimitationStatus.max_value f) = Some max ->
  Position_from_position (LimitationStatus.min_value f) = Some min ->
  LimitationTime_from_raw (LimitationStatus.limit_time f) = Some time ->
  exists w' node',
    process_frame now (FrameGetLimitationStatusNotification f) w = Return w'
    /\ nodes w' !! LimitationStatus.node_id f = Some node'
    /\ limitation_max node' = max
    /\ limitation_min node' = min
    /\ limitation_originator node' = LimitationStatus.limit_originator f
    /\ limitation_time node' = time
    /\ after_update_calls w'
       = after_update_calls w ++ [LimitationStatus.node_id f].
Proof.
  intros Hn Hc Hmax Hmin Htime. simpl.
  unfold process_frame_limitation_status_notification.
  rewrite Hn; simpl. rewrite Hc, Hmax, Hmin, Htime.
  eexists; eexists. split; [reflexivity |].
  split; [simpl; apply lookup_insert_eq |].
  repeat split; reflexivity.
Qed.

(** C9.  A notification of any kind whose node identifier is not in the
    registry: the call returns, and returns the world it was given, so no
    field of any node is changed and no hook is invoked. *)
Theorem unknown_node_is_ignored (now : Z) (frame : Frame) (w : World) :
  (forall id, frame_node_id frame = Some id -> nodes w !! id = None) ->
  process_frame now frame w = Return w.
Proof.
  intros Hunknown.
  destruct frame as [f | f | f | f |]; simpl in *;
    unfold process_node_state, process_frame_status_request_notification,
      process_frame_limitation_status_notification;
    try rewrite (Hunknown _ eq_refl); reflexivity.
Qed.

(** C10.  The second [isinstance(node, OpeningDevice)] branch of the chain
    is dead: for every input the chain computes what the chain without that
    branch computes; and no call writes [target_position]: for every frame
    and every registered node the field is after the call what it was
    before. *)
Theorem second_opening_device_branch_is_dead
    (now : Z) (frame : Frame) (w : World) (id : Z) (node : Node) :
  nodes w !! id = Some node ->
  (forall i f p t n w0,
     set_main_parameter i f p t n w0
     = set_main_parameter_pruned i f p t n w0)
  /\ exists node',
       node_after (process_frame now frame w) id = Some node'
       /\ target_position node' = target_position node.
Proof.
  intros Hn. split; [exact set_main_parameter_pruned_eq |].
  destruct frame as [f | f | f | f |]; simpl.
  - destruct (process_node_state_at now f w id node Hn)
      as (n' & Hn' & Htp & _); eauto.
  - destruct (process_node_state_at now f w id node Hn)
      as (n' & Hn' & Htp & _); eauto.
  - destruct (process_status_request_at f w id node Hn)
      as (n' & Hn' & Htp & _); eauto.
  - destruct (process_limitation_status_at f w id node Hn)
      as (n' & Hn' & Htp); eauto.
  - exists node. split; [exact Hn | reflexivity].
Qed.

End RangeFiltering.

(** When it is the lower bound that is rejected, the upper bound has been
    written by then: the call raises with [limitation_max] replaced and no
    hook invoked. *)
Example rejected_lower_bound_leaves_upper_bound_written :
  process_frame (codec := klf200) 0 frame_limitation_min_rejected home
  = Raise PyVLXException
      (store 1 (set_limitation_max (Position.Build raw_70)
                  (fresh_node OpeningDevice_cls)) home).
Proof. vm_compute. reflexivity. Qed.

(** C7, as stated, fails.  Node 1 is an opening device with upper bound
    100 %; a limitation notification carries the upper bound [0xD000], which
    is outside the valid range.  [Position(position=0xD000)] rejects it: the
    call raises, no limitation field is overwritten and no hook is
    invoked. *)
Lemma rejected_bound_is_not_written :
  isinstance_OpeningDevice (fresh_node OpeningDevice_cls) = true
  /\ nodes home !! 1 = Some (fresh_node OpeningDevice_cls)
  /\ in_valid_range (codec := klf200) 0xD000 = false
  /\ process_frame (codec := klf200) 0 frame_limitation_rejected home
     = Raise PyVLXException home
  /\ limitation_max <$>
       node_after (process_frame (codec := klf200) 0
                     frame_limitation_rejected home) 1
     = Some (Position.Build 0xC800)
  /\ after_update_calls
       (world_of (process_frame (codec := klf200) 0
                    frame_limitation_rejected home)) = [].
Proof. vm_compute. repeat split; reflexivity. Qed.

(** ** The theorems at work on the small installation *)


(** Status request at work: main parameter 55 and FP3 without feedback give
    position 55, the old orientation and one hook call; the frame without
    FP3 changes nothing. *)
Lemma status_request_on_blind_witness :
  process_frame (codec := klf200) 0 frame_status_no_fp3 home = Return home
  /\ exists w' n,
       process_frame (codec := klf200) 0 frame_status home = Return w'
       /\ nodes w' !! 2 = Some n
       /\ position n = Position.Build 55
       /\ orientation n = Position.Build UNKNOWN_VALUE
       /\ after_update_calls w' = [2].
Proof.
  split.
  - apply (status_request_on_blind (codec := klf200) 0
             (StatusRequest.Build 2 (<[0 := 55]> ∅)) home
             (fresh_node Blind_cls));
      [vm_compute; reflexivity | reflexivity | right; reflexivity].
  - destruct (status_request_on_blind (codec := klf200) 0
                (StatusRequest.Build 2 (<[0 := 55]> (<[3 := UNKNOWN_VALUE]> ∅)))
                home (fresh_node Blind_cls))
      as (_ & Hboth); [vm_compute; reflexivity | reflexivity |].
    destruct (Hboth 55 UNKNOWN_VALUE) as (w' & n & Hrun & Hn & Hp & Ho & Hc);
      [reflexivity | reflexivity |].
    exists w', n. repeat split; assumption.
Defined.

(** Limitation status at work: an upper bound without feedback is written
    all the same. *)
Lemma limitation_status_overwrites_witness :
  exists w' n,
    process_frame (codec := klf200) 0 frame_limitation home = Return w'
    /\ nodes w' !! 1 = Some n
    /\ limitation_max n = Position.Build UNKNOWN_VALUE
    /\ limitation_min n = Position.Build 0
    /\ limitation_originator n = 1
    /\ limitation_time n = LimitationTime.Build 253
    /\ after_update_calls w' = [1].
Proof.
  apply (limitation_status_overwrites (codec := klf200) 0
           (LimitationStatus.Build 1 UNKNOWN_VALUE 0 1 253) home
           (fresh_node OpeningDevice_cls));
    [vm_compute; reflexivity | reflexivity | reflexivity | reflexivity
    | reflexivity].
Defined.

(** Unknown identifiers at work: identifier 9, all four kinds. *)
Lemma unknown_node_is_ignored_witness :
  Forall (fun frame => process_frame (codec := klf200) 0 frame home
                       = Return home) frames_stranger.
Proof.
  unfold frames_stranger.
  repeat (apply List.Forall_cons;
    [apply (unknown_node_is_ignored (codec := klf200));
     intros id [= <-]; vm_compute; reflexivity |]).
  apply List.Forall_nil.
Defined.

(** Node 1 has no [target_position] after a node-state notification. *)
Lemma second_opening_device_branch_is_dead_witness :
  exists n,
    node_after (process_frame (codec := klf200) 100 frame_closing home) 1
    = Some n
    /\ target_position n = None.
Proof.
  destruct (second_opening_device_branch_is_dead (codec := klf200) 100
              frame_closing home 1 (fresh_node OpeningDevice_cls))
    as (_ & n & Hn & Htp); [vm_compute; reflexivity |].
  exists n. split; [exact Hn | exact Htp].
Defined.

(** * The calls, one equation per case *)

Section Calls.
Context `{codec : ParameterCodec}.

Lemma name_OnOffSwitch_unbound : name_bound "OnOffSwitch" = false.
Proof. reflexivity. Qed.

(** A node-state notification for a lightening device. *)
Lemma process_node_state_lightening_device
    (now : Z) (f : NodeState.t) (w : World) (node : Node) :
  nodes w !! NodeState.node_id f = Some node ->
  isinstance_LighteningDevice node = true ->
  let i := Intensity_from_parameter (NodeState.current_position f) in
  process_node_state now f w
  = Return (after_update (NodeState.node_id f)
      (store (NodeState.node_id f)
         (if Intensity.intensity i <=? Parameter_MAX
          then set_intensity i node else node) w)).
Proof.
  intros Hn Hl. unfold process_node_state. rewrite Hn. simpl.
  assert (Ho : isinstance_OpeningDevice node = false).
  { unfold isinstance_LighteningDevice in Hl.
    unfold isinstance_OpeningDevice. destruct (class_of node); congruence. }
  rewrite Ho. unfold set_main_parameter. rewrite Ho, Hl. reflexivity.
Qed.

(** A node-state notification for a node of any other class. *)
Lemma process_node_state_other_class
    (now : Z) (f : NodeState.t) (w : World) (node : Node) :
  nodes w !! NodeState.node_id f = Some node ->
  isinstance_OpeningDevice node = false ->
  isinstance_LighteningDevice node = false ->
  process_node_state now f w = Raise (NameError "OnOffSwitch") w.
Proof.
  intros Hn Ho Hl. unfold process_node_state. rewrite Hn. simpl.
  rewrite Ho. unfold set_main_parameter.
  rewrite Ho, Hl, name_OnOffSwitch_unbound.
  by rewrite (store_same _ _ _ Hn).
Qed.

Lemma process_node_state_unknown
    (now : Z) (f : NodeState.t) (w : World) :
  nodes w !! NodeState.node_id f = None ->
  process_node_state now f w = Return w.
Proof. intros Hn. unfold process_node_state. by rewrite Hn. Qed.

(** What the status request writes on a blind. *)
Lemma process_status_request_blind
    (f : StatusRequest.t) (w : World) (node : Node) (mp fp3 : Z) :
  nodes w !! StatusRequest.node_id f = Some node ->
  isinstance_Blind node = true ->
  StatusRequest.parameter_data f !! 0 = Some mp ->
  StatusRequest.parameter_data f !! 3 = Some fp3 ->
  let p := Position_from_parameter mp in
  let o := Position_from_parameter fp3 in
  let n1 :=
    if Position.position p <=? Parameter_MAX
    then set_position p node else node in
  process_frame_status_request_notification f w
  = Return (after_update (StatusRequest.node_id f)
      (store (StatusRequest.node_id f)
         (if Position.position o <=? Parameter_MAX
          then set_orientation o n1 else n1) w)).
Proof.
  intros Hn Hb Hmp Hfp3. unfold process_frame_status_request_notification.
  rewrite Hn; simpl. by rewrite Hb, Hmp, Hfp3.
Qed.

(** When the status request does nothing at all. *)
Lemma process_status_request_idle (f : StatusRequest.t) (w : World) :
  match nodes w !! StatusRequest.node_id f with
  | Some node =>
      isinstance_Blind node = false
      \/ StatusRequest.parameter_data f !! 0 = None
      \/ StatusRequest.parameter_data f !! 3 = None
  | None => True
  end ->
  process_frame_status_request_notification f w = Return w.
Proof.
  unfold process_frame_status_request_notification.
  destruct (nodes w !! StatusRequest.node_id f) as [node |]; simpl;
    [| reflexivity].
  intros [-> | [-> | ->]]; [reflexivity | |].
  - by destruct (isinstance_Blind node).
  - destruct (isinstance_Blind node); [| reflexivity].
    by destruct (StatusRequest.parameter_data f !! 0).
Qed.

(** What the limitation status writes on an opening device when the
    constructors accept the payload. *)
Lemma process_limitation_status_opening_device
    (f : LimitationStatus.t) (w : World) (node : Node)
    (max min : Position.t) (time : LimitationTime.t) :
  nodes w !! LimitationStatus.node_id f = Some node ->
  isinstance_OpeningDevice node = true ->
  Position_from_position (LimitationStatus.max_value f) = Some max ->
  Position_from_position (LimitationStatus.min_value f) = Some min ->
  LimitationTime_from_raw (LimitationStatus.limit_time f) = Some time ->
  process_frame_limitation_status_notification f w
  = Return (after_update (LimitationStatus.node_id f)
      (store (LimitationStatus.node_id f)
         (set_limitation_time time
            (set_limitation_originator (LimitationStatus.limit_originator f)
               (set_limitation_min min (set_limitation_max max node)))) w)).
Proof.
  intros Hn Ho Hmax Hmin Htime.
  unfold process_frame_limitation_status_notification.
  rewrite Hn; simpl. by rewrite Ho, Hmax, Hmin, Htime.
Qed.

Lemma constructors_accept_true (f : LimitationStatus.t) :
  constructors_accept f = true ->
  exists max min time,
    Position_from_position (LimitationStatus.max_value f) = Some max
    /\ Position_from_position (LimitationStatus.min_value f) = Some min
    /\ LimitationTime_from_raw (LimitationStatus.limit_time f) = Some time.
Proof.
  unfold constructors_accept.
  repeat case_match; try discriminate. intros _. eauto 8.
Qed.

(** What it does when a constructor rejects its argument: the call raises,
    with the fields assigned so far written and no hook invoked. *)
Lemma process_limitation_status_rejected
    (f : LimitationStatus.t) (w : World) (node : Node) :
  nodes w !! LimitationStatus.node_id f = Some node ->
  isinstance_OpeningDevice node = true ->
  constructors_accept f = false ->
  exists node',
    process_frame_limitation_status_notification f w
    = Raise PyVLXException (store (LimitationStatus.node_id f) node' w)
    /\ node'
       = set_limitation_originator (limitation_originator node')
           (set_limitation_min (limitation_min node')
              (set_limitation_max (limitation_max node') node))
    /\ (Position_from_position (LimitationStatus.max_value f) = None ->
        node' = node).
Proof.
  intros Hn Ho. unfold constructors_accept.
  unfold process_frame_limitation_status_notification.
  rewrite Hn; simpl. rewrite Ho.
  destruct node.
  repeat case_match; try discriminate; intros _; eexists;
    (split; [reflexivity |]); split; try reflexivity; intros; congruence.
Qed.

Lemma process_limitation_status_idle (f : LimitationStatus.t) (w : World) :
  match nodes w !! LimitationStatus.node_id f with
  | Some node => isinstance_OpeningDevice node = false
  | None => True
  end ->
  process_frame_limitation_status_notification f w = Return w.
Proof.
  unfold process_frame_limitation_status_notification.
  destruct (nodes w !! LimitationStatus.node_id f) as [node |]; simpl;
    [| reflexivity].
  by intros ->.
Qed.

(** No assignment changes the class of the object. *)
Lemma motion_keeps_class
    (now : Z) (f : NodeState.t) (p t : Position.t) (n : Node) :
  class_of (set_opening_device_status now f p t n) = class_of n.
Proof.
  unfold set_opening_device_status, set_timestamps, stop_closing,
    stop_opening.
  repeat case_match; reflexivity.
Qed.

Lemma process_node_state_cases (now : Z) (f : NodeState.t) (w : World) :
  process_node_state now f w = Return w
  \/ (exists node node',
        nodes w !! NodeState.node_id f = Some node
        /\ class_of node' = class_of node
        /\ process_node_state now f w
           = Return (after_update (NodeState.node_id f)
                       (store (NodeState.node_id f) node' w)))
  \/ (exists node,
        nodes w !! NodeState.node_id f = Some node
        /\ isinstance_OpeningDevice node = false
        /\ isinstance_LighteningDevice node = false
        /\ process_node_state now f w = Raise (NameError "OnOffSwitch") w).
Proof.
  destruct (nodes w !! NodeState.node_id f) as [node |] eqn:Hn.
  - destruct (isinstance_OpeningDevice node) eqn:Ho.
    + right; left. eexists node, _. split; [reflexivity |].
      split; [| apply (process_node_state_opening_device _ _ _ _ Hn Ho)].
      simpl. case_match; simpl; apply motion_keeps_class.
    + destruct (isinstance_LighteningDevice node) eqn:Hl.
      * right; left. eexists node, _. split; [reflexivity |].
        split; [| apply (process_node_state_lightening_device _ _ _ _ Hn Hl)].
        simpl. case_match; reflexivity.
      * right; right. exists node. repeat split; try assumption.
        by apply (process_node_state_other_class now f w node).
  - left. by apply process_node_state_unknown.
Qed.

(** Every call has one of four shapes: nothing happens; the addressed node
    is updated, keeps its class, and its hook is invoked; the name
    [OnOffSwitch] is evaluated and the call raises, the world untouched; or
    a constructor rejects a limitation value and the call raises, with the
    limitation fields assigned before it written. *)
Lemma process_frame_cases (now : Z) (frame : Frame) (w : World) :
  process_frame now frame w = Return w
  \/ (exists id node node',
        frame_node_id frame = Some id
        /\ nodes w !! id = Some node
        /\ class_of node' = class_of node
        /\ process_frame now frame w
           = Return (after_update id (store id node' w)))
  \/ (exists f node,
        (frame = FrameNodeStatePositionChangedNotification f
         \/ frame = FrameGetAllNodesInformationNotification f)
        /\ nodes w !! NodeState.node_id f = Some node
        /\ isinstance_OpeningDevice node = false
        /\ isinstance_LighteningDevice node = false
        /\ process_frame now frame w = Raise (NameError "OnOffSwitch") w)
  \/ (exists f node node',
        frame = FrameGetLimitationStatusNotification f
        /\ nodes w !! LimitationStatus.node_id f = Some node
        /\ isinstance_OpeningDevice node = true
        /\ constructors_accept f = false
        /\ node'
           = set_limitation_originator (limitation_originator node')
               (set_limitation_min (limitation_min node')
                  (set_limitation_max (limitation_max node') node))
        /\ process_frame now frame w
           = Raise PyVLXException
               (store (LimitationStatus.node_id f) node' w)).
Proof.
  destruct frame as [f | f | f | f |].
  - simpl.
    destruct (process_node_state_cases now f w)
      as [H | [(node & node' & Hn & Hc & H) | (node & Hn & Ho & Hl & H)]].
    + by left.
    + right; left. by exists (NodeState.node_id f), node, node'.
    + right; right; left. exists f, node. repeat split; auto.
  - simpl.
    destruct (process_node_state_cases now f w)
      as [H | [(node & node' & Hn & Hc & H) | (node & Hn & Ho & Hl & H)]].
    + by left.
    + right; left. by exists (NodeState.node_id f), node, node'.
    + right; right; left. exists f, node. repeat split; auto.
  - simpl.
    destruct (nodes w !! StatusRequest.node_id f) as [node |] eqn:Hn;
      [| left; apply process_status_request_idle; by rewrite Hn].
    destruct (isinstance_Blind node) eqn:Hb;
      [| left; apply process_status_request_idle; rewrite Hn; by left].
    destruct (StatusRequest.parameter_data f !! 0) as [mp |] eqn:Hmp;
      [| left; apply process_status_request_idle; rewrite Hn; right; by left].
    destruct (StatusRequest.parameter_data f !! 3) as [fp3 |] eqn:Hfp3;
      [| left; apply process_status_request_idle; rewrite Hn; right;
         by right].
    right; left. eexists _, node, _.
    split; [reflexivity |]. split; [exact Hn |].
    split; [| apply (process_status_request_blind _ _ _ _ _ Hn Hb Hmp Hfp3)].
    simpl. repeat case_match; reflexivity.
  - simpl.
    destruct (nodes w !! LimitationStatus.node_id f) as [node |] eqn:Hn;
      [| left; apply process_limitation_status_idle; by rewrite Hn].
    destruct (isinstance_OpeningDevice node) eqn:Ho;
      [| left; apply process_limitation_status_idle; by rewrite Hn].
    destruct (constructors_accept f) eqn:Haccept.
    + destruct (constructors_accept_true f Haccept)
        as (max & min & time & Hmax & Hmin & Htime).
      right; left. eexists _, node, _.
      split; [reflexivity |]. split; [exact Hn |].
      split;
        [| apply (process_limitation_status_opening_device
                    _ _ _ _ _ _ Hn Ho Hmax Hmin Htime)].
      reflexivity.
    + destruct (process_limitation_status_rejected f w node Hn Ho Haccept)
        as (node' & Hrun & Hform & _).
      right; right; right. by exists f, node, node'.
  - by left.
Qed.

End Calls.

(** * Further properties of the calls *)

Section Calls_properties.
Context `{codec : ParameterCodec}.

Lemma isinstance_by_class (a b : Node) :
  class_of a = class_of b ->
  isinstance_OpeningDevice a = isinstance_OpeningDevice b
  /\ isinstance_LighteningDevice a = isinstance_LighteningDevice b
  /\ isinstance_Blind a = isinstance_Blind b.
Proof.
  unfold isinstance_OpeningDevice, isinstance_LighteningDevice,
    isinstance_Blind.
  by intros ->.
Qed.

(** X3.  A call raises in exactly two situations: the frame is a node-state
    notification whose node is registered and is neither an opening device
    nor a lightening device, and then the exception is [NameError] for the
    name [OnOffSwitch] and nothing has been changed; or the frame is a
    limitation status whose node is a registered opening device and one of
    the three parameter constructors rejects its value, and then the
    exception is [PyVLXException].  In both no hook has been invoked.
    Status requests never raise. *)
Theorem raises_exactly_when
    (now : Z) (frame : Frame) (w : World) :
  (raises (process_frame now frame w) = true
   <-> (exists f node,
          (frame = FrameNodeStatePositionChangedNotification f
           \/ frame = FrameGetAllNodesInformationNotification f)
          /\ nodes w !! NodeState.node_id f = Some node
          /\ isinstance_OpeningDevice node = false
          /\ isinstance_LighteningDevice node = false)
       \/ (exists f node,
             frame = FrameGetLimitationStatusNotification f
             /\ nodes w !! LimitationStatus.node_id f = Some node
             /\ isinstance_OpeningDevice node = true
             /\ constructors_accept f = false))
  /\ (forall e w',
        process_frame now frame w = Raise e w' ->
        after_update_calls w' = after_update_calls w
        /\ ((e = NameError "OnOffSwitch" /\ w' = w)
            \/ (e = PyVLXException
                /\ exists f, frame = FrameGetLimitationStatusNotification f))).
Proof.
  assert (Hconv :
    (exists f node,
       (frame = FrameNodeStatePositionChangedNotification f
        \/ frame = FrameGetAllNodesInformationNotification f)
       /\ nodes w !! NodeState.node_id f = Some node
       /\ isinstance_OpeningDevice node = false
       /\ isinstance_LighteningDevice node = false)
    \/ (exists f node,
          frame = FrameGetLimitationStatusNotification f
          /\ nodes w !! LimitationStatus.node_id f = Some node
          /\ isinstance_OpeningDevice node = true
          /\ constructors_accept f = false) ->
    raises (process_frame now frame w) = true).
  { intros [(f & node & Hkind & Hn & Ho & Hl)
           | (f & node & -> & Hn & Ho & Haccept)].
    - assert (Hrun : process_frame now frame w = process_node_state now f w)
        by (destruct Hkind as [-> | ->]; reflexivity).
      by rewrite Hrun, (process_node_state_other_class now f w node Hn Ho Hl).
    - destruct (process_limitation_status_rejected f w node Hn Ho Haccept)
        as (node' & Hrun & _).
      simpl. by rewrite Hrun. }
  destruct (process_frame_cases now frame w)
    as [Hret | [(id & node & node' & _ & _ & _ & Hret)
       | [(f & node & Hkind & Hn & Ho & Hl & Hraise)
         | (f & node & node' & Hkind & Hn & Ho & Haccept & _ & Hraise)]]].
  - split; [| rewrite Hret; discriminate].
    split; [rewrite Hret; discriminate | exact Hconv].
  - split; [| rewrite Hret; discriminate].
    split; [rewrite Hret; discriminate | exact Hconv].
  - split.
    + split; [| exact Hconv]. intros _. left. by exists f, node.
    + rewrite Hraise. intros e w' [= <- <-]. split; [reflexivity |].
      left. by split.
  - split.
    + split; [| exact Hconv]. intros _. right. by exists f, node.
    + rewrite Hraise. intros e w' [= <- <-]. split; [reflexivity |].
      right. split; [reflexivity |]. by exists f.
Qed.

(** X4.  A call leaves every node alone that is registered under an
    identifier other than the one the frame carries. *)
Theorem other_nodes_untouched
    (now : Z) (frame : Frame) (w : World) (id : Z) :
  frame_node_id frame <> Some id ->
  node_after (process_frame now frame w) id = nodes w !! id.
Proof.
  intros Hother.
  destruct (process_frame_cases now frame w)
    as [-> | [(id0 & node & node' & Hid & _ & _ & ->)
       | [(f & node & _ & _ & _ & _ & ->)
         | (f & node & node' & -> & _ & _ & _ & _ & Hrun)]]];
    try reflexivity.
  - apply node_after_commit_ne. congruence.
  - rewrite Hrun. unfold node_after; simpl in *.
    apply lookup_insert_ne. congruence.
Qed.

(** X5.  A call neither registers nor removes a node, and no node changes
    its class: under every identifier, the class found after the call is the
    class found before (or none in both cases). *)
Theorem registry_keeps_nodes_and_classes
    (now : Z) (frame : Frame) (w : World) (id : Z) :
  class_of <$> node_after (process_frame now frame w) id
  = class_of <$> nodes w !! id.
Proof.
  destruct (process_frame_cases now frame w)
    as [-> | [(id0 & node & node' & _ & Hn & Hclass & ->)
       | [(f & node & _ & _ & _ & _ & ->)
         | (f & node & node' & _ & Hn & _ & _ & Hform & ->)]]];
    try reflexivity.
  - destruct (decide (id0 = id)) as [<- | Hne].
    + rewrite node_after_commit, Hn. simpl. by rewrite Hclass.
    + by rewrite node_after_commit_ne.
  - unfold node_after; simpl.
    destruct (decide (LimitationStatus.node_id f = id)) as [<- | Hne].
    + rewrite lookup_insert_eq, Hn. simpl. by rewrite Hform.
    + by rewrite lookup_insert_ne.
Qed.

(** X6.  The post-update hook is invoked by a call at most once, for the
    addressed node, and exactly in these cases: a node-state notification
    for a registered opening or lightening device; a status request for a
    registered blind carrying both the main parameter and functional
    parameter 3; a limitation status for a registered opening device whose
    values the parameter constructors accept.  Whenever the hook is not
    invoked and no constructor has rejected a value, the world is exactly as
    before. *)
Theorem hook_fires_exactly_when (now : Z) (frame : Frame) (w : World) :
  let fired :=
    match frame with
    | FrameGetAllNodesInformationNotification f
    | FrameNodeStatePositionChangedNotification f =>
        match nodes w !! NodeState.node_id f with
        | Some node =>
            if isinstance_OpeningDevice node
               || isinstance_LighteningDevice node
            then [NodeState.node_id f] else []
        | None => []
        end
    | FrameStatusRequestNotification f =>
        match nodes w !! StatusRequest.node_id f,
              StatusRequest.parameter_data f !! 0,
              StatusRequest.parameter_data f !! 3 with
        | Some node, Some _, Some _ =>
            if isinstance_Blind node then [StatusRequest.node_id f] else []
        | _, _, _ => []
        end
    | FrameGetLimitationStatusNotification f =>
        match nodes w !! LimitationStatus.node_id f with
        | Some node =>
            if isinstance_OpeningDevice node && constructors_accept f
            then [LimitationStatus.node_id f] else []
        | None => []
        end
    | FrameOther => []
    end in
  after_update_calls (world_of (process_frame now frame w))
  = after_update_calls w ++ fired
  /\ (fired = [] ->
      (forall w', process_frame now frame w <> Raise PyVLXException w') ->
      world_of (process_frame now frame w) = w).
Proof.
  assert (Hstate : forall f,
    let fired :=
      match nodes w !! NodeState.node_id f with
      | Some node =>
          if isinstance_OpeningDevice node || isinstance_LighteningDevice node
          then [NodeState.node_id f] else []
      | None => []
      end in
    after_update_calls (world_of (process_node_state now f w))
    = after_update_calls w ++ fired
    /\ (fired = [] ->
        (forall w', process_node_state now f w <> Raise PyVLXException w') ->
        world_of (process_node_state now f w) = w)).
  { intros f.
    destruct (nodes w !! NodeState.node_id f) as [node |] eqn:Hn; simpl.
    - destruct (isinstance_OpeningDevice node) eqn:Ho; simpl.
      + rewrite (process_node_state_opening_device _ _ _ _ Hn Ho).
        split; [reflexivity | discriminate].
      + destruct (isinstance_LighteningDevice node) eqn:Hl.
        * rewrite (process_node_state_lightening_device _ _ _ _ Hn Hl).
          split; [reflexivity | discriminate].
        * rewrite (process_node_state_other_class _ _ _ _ Hn Ho Hl).
          simpl. by rewrite app_nil_r.
    - rewrite (process_node_state_unknown _ _ _ Hn).
      simpl. by rewrite app_nil_r. }
  destruct frame as [f | f | f | f |]; simpl.
  - apply Hstate.
  - apply Hstate.
  - destruct (nodes w !! StatusRequest.node_id f) as [node |] eqn:Hn;
      [| rewrite process_status_request_idle by (by rewrite Hn);
         simpl; by rewrite app_nil_r].
    destruct (StatusRequest.parameter_data f !! 0) as [mp |] eqn:Hmp;
      [| rewrite process_status_request_idle
           by (rewrite Hn; right; by left);
         simpl; by rewrite app_nil_r].
    destruct (StatusRequest.parameter_data f !! 3) as [fp3 |] eqn:Hfp3;
      [| rewrite process_status_request_idle
           by (rewrite Hn; right; by right);
         simpl; by rewrite app_nil_r].
    destruct (isinstance_Blind node) eqn:Hb;
      [| rewrite process_status_request_idle by (rewrite Hn; by left);
         simpl; by rewrite app_nil_r].
    rewrite (process_status_request_blind _ _ _ _ _ Hn Hb Hmp Hfp3).
    split; [reflexivity | discriminate].
  - destruct (nodes w !! LimitationStatus.node_id f) as [node |] eqn:Hn;
      [| rewrite process_limitation_status_idle by (by rewrite Hn);
         simpl; by rewrite app_nil_r].
    destruct (isinstance_OpeningDevice node) eqn:Ho;
      [| rewrite process_limitation_status_idle by (by rewrite Hn);
         simpl; by rewrite app_nil_r].
    destruct (constructors_accept f) eqn:Haccept; simpl.
    + destruct (constructors_accept_true f Haccept)
        as (max & min & time & Hmax & Hmin & Htime).
      rewrite (process_limitation_status_opening_device
                 _ _ _ _ _ _ Hn Ho Hmax Hmin Htime).
      split; [reflexivity | discriminate].
    + destruct (process_limitation_status_rejected f w node Hn Ho Haccept)
        as (node' & Hrun & _).
      rewrite Hrun. simpl. split; [by rewrite app_nil_r |].
      intros _ Hno. by destruct (Hno _ eq_refl).
  - by rewrite app_nil_r.
Qed.

(** X12.  In an installation where every registered node is an opening
    device or a lightening device, no sequence of notifications whose
    limitation values the parameter constructors accept ever makes a call
    raise. *)
Theorem supported_installation_never_raises
    (frames : list (Z * Frame)) (w : World) :
  (forall id node,
     nodes w !! id = Some node ->
     isinstance_OpeningDevice node || isinstance_LighteningDevice node
     = true) ->
  forallb (fun timed => frame_accepted timed.2) frames = true ->
  raises (process_frames frames w) = false.
Proof.
  revert w. induction frames as [| [now frame] rest IH];
    intros w Hall Haccepted; [reflexivity |].
  simpl in Haccepted. apply andb_true_iff in Haccepted as [Hframe Hrest].
  simpl.
  destruct (process_frame_cases now frame w)
    as [-> | [(id0 & node & node' & _ & Hn & Hclass & ->)
       | [(f & node & _ & Hn & Ho & Hl & _)
         | (f & node & node' & -> & _ & _ & Hrejected & _)]]].
  - by apply IH.
  - apply IH; [| exact Hrest]. intros id n Hlookup. simpl in Hlookup.
    destruct (decide (id0 = id)) as [<- | Hne].
    + rewrite lookup_insert_eq in Hlookup. injection Hlookup as <-.
      destruct (isinstance_by_class node' node Hclass) as (-> & -> & _).
      by apply (Hall id0).
    + rewrite lookup_insert_ne in Hlookup by exact Hne.
      by apply (Hall id).
  - specialize (Hall _ _ Hn). rewrite Ho, Hl in Hall. discriminate.
  - simpl in Hframe. congruence.
Qed.

End Calls_properties.

(** * What each kind of notification writes *)

Section Footprints.
Context `{codec : ParameterCodec}.

Lemma process_frame_elsewhere
    (now : Z) (frame : Frame) (w : World) (id : Z) :
  frame_node_id frame <> Some id ->
  node_after (process_frame now frame w) id = nodes w !! id.
Proof.
  intros Hother.
  destruct (process_frame_cases now frame w)
    as [-> | [(id0 & node & node' & Hid & _ & _ & ->)
       | [(f & node & _ & _ & _ & _ & ->)
         | (f & node & node' & -> & _ & _ & _ & _ & Hrun)]]];
    try reflexivity.
  - apply node_after_commit_ne. congruence.
  - rewrite Hrun. unfold node_after; simpl in *.
    apply lookup_insert_ne. congruence.
Qed.

Ltac node_state_run Hkind Hrun Hid :=
  match type of Hkind with
  | ?frame = _ ?f \/ _ =>
      assert (Hrun : forall now w,
                process_frame now frame w = process_node_state now f w)
        by (destruct Hkind as [-> | ->]; reflexivity);
      assert (Hid : frame_node_id frame = Some (NodeState.node_id f))
        by (destruct Hkind as [-> | ->]; reflexivity)
  end.

(** X1.  A node-state notification (either kind) addressed to a lightening
    device returns; afterwards [intensity] is the decoded current position
    if that is in the valid range and the old intensity otherwise, no other
    field of the node has changed, and the hook of the node has been invoked
    exactly once. *)
Theorem lightening_device_intensity
    (now : Z) (frame : Frame) (f : NodeState.t) (w : World) (node : Node) :
  frame = FrameNodeStatePositionChangedNotification f
  \/ frame = FrameGetAllNodesInformationNotification f ->
  nodes w !! NodeState.node_id f = Some node ->
  isinstance_LighteningDevice node = true ->
  let i := Intensity_from_parameter (NodeState.current_position f) in
  exists w' node',
    process_frame now frame w = Return w'
    /\ nodes w' !! NodeState.node_id f = Some node'
    /\ intensity node'
       = (if in_valid_range (Intensity.intensity i)
          then i else intensity node)
    /\ node' = set_intensity (intensity node') node
    /\ after_update_calls w'
       = after_update_calls w ++ [NodeState.node_id f].
Proof.
  intros Hkind Hn Hl i. node_state_run Hkind Hrun Hid.
  rewrite Hrun, (process_node_state_lightening_device _ _ _ _ Hn Hl).
  eexists _, _. split; [reflexivity |].
  split; [simpl; apply lookup_insert_eq |].
  unfold in_valid_range. fold i.
  destruct (Intensity.intensity i <=? Parameter_MAX);
    repeat split; try reflexivity.
  by destruct node.
Qed.

(** X2.  A node-state notification (either kind) addressed to an opening
    device returns; afterwards, if the decoded position is in the valid
    range, [position] is the decoded position and [target] is the decoded
    target, whatever the target's value, and otherwise both are the old
    ones; the hook of the node has been invoked exactly once, whether or not
    anything was written. *)
Theorem opening_device_main_parameter
    (now : Z) (frame : Frame) (f : NodeState.t) (w : World) (node : Node) :
  frame = FrameNodeStatePositionChangedNotification f
  \/ frame = FrameGetAllNodesInformationNotification f ->
  nodes w !! NodeState.node_id f = Some node ->
  isinstance_OpeningDevice node = true ->
  let p := Position_from_parameter (NodeState.current_position f) in
  let t := Position_from_parameter (NodeState.target f) in
  exists w' node',
    process_frame now frame w = Return w'
    /\ nodes w' !! NodeState.node_id f = Some node'
    /\ position node'
       = (if in_valid_range (Position.position p) then p else position node)
    /\ target node'
       = (if in_valid_range (Position.position p) then t else target node)
    /\ after_update_calls w'
       = after_update_calls w ++ [NodeState.node_id f].
Proof.
  intros Hkind Hn Ho p t. node_state_run Hkind Hrun Hid.
  rewrite Hrun, (process_node_state_opening_device _ _ _ _ Hn Ho).
  eexists _, _. split; [reflexivity |].
  split; [simpl; apply lookup_insert_eq |].
  unfold in_valid_range. fold p t.
  destruct (motion_keeps_parameters now f p t node) as (Hp & Ht & _).
  destruct (Position.position p <=? Parameter_MAX);
    repeat split; try reflexivity; assumption.
Qed.

(** X7.  A node-state notification (either kind) never changes, on any
    registered node, the orientation, the four limitation fields or the
    switch parameter; on a node that is not an opening device it changes
    neither position, target, motion flags nor timestamps; on a node that is
    not a lightening device it does not change the intensity. *)
Theorem node_state_footprint
    (now : Z) (frame : Frame) (f : NodeState.t) (w : World) (id : Z)
    (node : Node) :
  frame = FrameNodeStatePositionChangedNotification f
  \/ frame = FrameGetAllNodesInformationNotification f ->
  nodes w !! id = Some node ->
  exists node',
    node_after (process_frame now frame w) id = Some node'
    /\ (orientation node' = orientation node
        /\ limitation_max node' = limitation_max node
        /\ limitation_min node' = limitation_min node
        /\ limitation_originator node' = limitation_originator node
        /\ limitation_time node' = limitation_time node
        /\ parameter node' = parameter node)
    /\ (isinstance_OpeningDevice node = false ->
        position node' = position node /\ target node' = target node
        /\ is_opening node' = is_opening node
        /\ is_closing node' = is_closing node
        /\ state_received_at node' = state_received_at node
        /\ estimated_completion node' = estimated_completion node)
    /\ (isinstance_LighteningDevice node = false ->
        intensity node' = intensity node).
Proof.
  intros Hkind Hn. node_state_run Hkind Hrun Hid.
  destruct (decide (NodeState.node_id f = id)) as [<- | Hne].
  - rewrite Hrun.
    destruct (isinstance_OpeningDevice node) eqn:Ho.
    + rewrite (process_node_state_opening_device _ _ _ _ Hn Ho).
      eexists. split; [apply node_after_commit |].
      unfold set_opening_device_status, set_timestamps, stop_closing,
        stop_opening.
      repeat case_match; repeat split; try reflexivity; discriminate.
    + destruct (isinstance_LighteningDevice node) eqn:Hl.
      * rewrite (process_node_state_lightening_device _ _ _ _ Hn Hl).
        eexists. split; [apply node_after_commit |].
        repeat case_match; repeat split; try reflexivity; discriminate.
      * rewrite (process_node_state_other_class _ _ _ _ Hn Ho Hl).
        exists node. split; [exact Hn |]. repeat split; reflexivity.
  - rewrite process_frame_elsewhere by congruence.
    exists node. split; [exact Hn |]. repeat split; reflexivity.
Qed.

(** X8.  A status-request notification changes at most [position] and
    [orientation]: every registered node is afterwards the node it was with,
    possibly, these two fields replaced. *)
Theorem status_request_footprint
    (now : Z) (f : StatusRequest.t) (w : World) (id : Z) (node : Node) :
  nodes w !! id = Some node ->
  exists node',
    node_after (process_frame now (FrameStatusRequestNotification f) w) id
    = Some node'
    /\ node'
       = set_orientation (orientation node')
           (set_position (position node') node).
Proof.
  intros Hn.
  destruct (decide (StatusRequest.node_id f = id)) as [<- | Hne].
  - simpl.
    destruct (isinstance_Blind node) eqn:Hb;
      [| rewrite process_status_request_idle by (rewrite Hn; by left);
         exists node; split; [exact Hn | by destruct node]].
    destruct (StatusRequest.parameter_data f !! 0) as [mp |] eqn:Hmp;
      [| rewrite process_status_request_idle
           by (rewrite Hn; right; by left);
         exists node; split; [exact Hn | by destruct node]].
    destruct (StatusRequest.parameter_data f !! 3) as [fp3 |] eqn:Hfp3;
      [| rewrite process_status_request_idle
           by (rewrite Hn; right; by right);
         exists node; split; [exact Hn | by destruct node]].
    rewrite (process_status_request_blind _ _ _ _ _ Hn Hb Hmp Hfp3).
    eexists. split; [apply node_after_commit |].
    destruct node. repeat case_match; reflexivity.
  - rewrite process_frame_elsewhere by (simpl; congruence).
    exists node. split; [exact Hn | by destruct node].
Qed.

(** X9.  A limitation-status notification changes at most the four
    limitation fields: every registered node is afterwards the node it was
    with, possibly, these four fields replaced. *)
Theorem limitation_status_footprint
    (now : Z) (f : LimitationStatus.t) (w : World) (id : Z) (node : Node) :
  nodes w !! id = Some node ->
  exists node',
    node_after (process_frame now (FrameGetLimitationStatusNotification f) w)
      id = Some node'
    /\ node'
       = set_limitation_time (limitation_time node')
           (set_limitation_originator (limitation_originator node')
              (set_limitation_min (limitation_min node')
                 (set_limitation_max (limitation_max node') node))).
Proof.
  intros Hn.
  destruct (decide (LimitationStatus.node_id f = id)) as [<- | Hne].
  - simpl.
    destruct (isinstance_OpeningDevice node) eqn:Ho;
      [| rewrite process_limitation_status_idle by (by rewrite Hn);
         exists node; split; [exact Hn | by destruct node]].
    destruct (constructors_accept f) eqn:Haccept.
    + destruct (constructors_accept_true f Haccept)
        as (max & min & time & Hmax & Hmin & Htime).
      rewrite (process_limitation_status_opening_device
                 _ _ _ _ _ _ Hn Ho Hmax Hmin Htime).
      eexists. split; [apply node_after_commit |].
      by destruct node.
    + destruct (process_limitation_status_rejected f w node Hn Ho Haccept)
        as (node' & Hrun & Hform & _).
      rewrite Hrun. exists node'.
      split; [unfold node_after; simpl; apply lookup_insert_eq |].
      rewrite <- Hform. by destruct node'.
  - rewrite process_frame_elsewhere by (simpl; congruence).
    exists node. split; [exact Hn | by destruct node].
Qed.

End Footprints.

(** * Motion flags over several notifications *)

Section Motion.
Context `{codec : ParameterCodec}.

(** X16.  A node-state notification addressed to an opening device leaves
    both motion flags down whenever the decoded target is outside the valid
    range, or position and target coincide, or the frame carries no time
    signal (state not EXECUTING and no remaining time): no motion is inferred
    from an unreliable target, and any motion in progress is ended. *)
Theorem no_motion_without_target_or_time_signal
    (now : Z) (frame : Frame) (f : NodeState.t) (w : World) (node : Node) :
  frame = FrameNodeStatePositionChangedNotification f
  \/ frame = FrameGetAllNodesInformationNotification f ->
  nodes w !! NodeState.node_id f = Some node ->
  isinstance_OpeningDevice node = true ->
  let p :=
    Position.position (Position_from_parameter (NodeState.current_position f))
  in
  let t := Position.position (Position_from_parameter (NodeState.target f)) in
  in_valid_range t = false
  \/ p = t
  \/ (NodeState.state f <> EXECUTING /\ NodeState.remaining_time f <= 0) ->
  exists node',
    node_after (process_frame now frame w) (NodeState.node_id f) = Some node'
    /\ is_opening node' = false /\ is_closing node' = false.
Proof.
  intros Hkind Hn Ho p t Hidle. subst p t.
  assert (Hrun : process_frame now frame w = process_node_state now f w)
    by (destruct Hkind as [-> | ->]; reflexivity).
  rewrite Hrun, (process_node_state_opening_device now f w node Hn Ho).
  set (pos := Position_from_parameter (NodeState.current_position f)) in *.
  set (tgt := Position_from_parameter (NodeState.target f)) in *.
  eexists. split; [apply node_after_commit |].
  destruct (main_parameter_keeps_motion
              (Position.position pos <=? Parameter_MAX) pos tgt
              (set_opening_device_status now f pos tgt node))
    as (Eo & Ec & _).
  rewrite Eo, Ec. clear Eo Ec.
  assert (Hnot : ~ (Position.position tgt <= Parameter_MAX
                    /\ Position.position pos <> Position.position tgt
                    /\ (NodeState.state f = EXECUTING
                        \/ NodeState.remaining_time f > 0))).
  { unfold in_valid_range in Hidle.
    destruct Hidle as [Hinv | [Heq | [Hst Hrt]]].
    - apply Z.leb_gt in Hinv. lia.
    - tauto.
    - intros (_ & _ & [Hex | Hpos]); [tauto | lia]. }
  destruct (set_opening_device_status_cases now f pos tgt node)
    as (_ & _ & Hstop).
  rewrite Hstop.
  - destruct (stop_cases node) as (Hop & Hcl & _). auto.
  - apply not_true_is_false. intros H%opening_condition_iff.
    apply Hnot. repeat split; [tauto | lia | tauto].
  - apply not_true_is_false. intros H%closing_condition_iff.
    apply Hnot. repeat split; [tauto | lia | tauto].
Qed.

(** X11.  The motion flags stay mutually exclusive over a node-state
    notification unless the notification reverses a motion in progress: if
    the addressed node does not have both flags up, is not closing when the
    opening condition holds and is not opening when the closing condition
    holds, then it does not have both flags up afterwards. *)
Theorem flags_exclusive_unless_reversed
    (now : Z) (frame : Frame) (f : NodeState.t) (w : World) (node : Node) :
  frame = FrameNodeStatePositionChangedNotification f
  \/ frame = FrameGetAllNodesInformationNotification f ->
  nodes w !! NodeState.node_id f = Some node ->
  is_opening node && is_closing node = false ->
  let p := Position_from_parameter (NodeState.current_position f) in
  let t := Position_from_parameter (NodeState.target f) in
  (is_closing node = true -> opening_condition f p t = false) ->
  (is_opening node = true -> closing_condition f p t = false) ->
  exists node',
    node_after (process_frame now frame w) (NodeState.node_id f) = Some node'
    /\ is_opening node' && is_closing node' = false.
Proof.
  intros Hkind Hn Hexcl p t Hnoopen Hnoclose.
  assert (Hrun : process_frame now frame w = process_node_state now f w)
    by (destruct Hkind as [-> | ->]; reflexivity).
  rewrite Hrun.
  destruct (isinstance_OpeningDevice node) eqn:Ho.
  - rewrite (process_node_state_opening_device now f w node Hn Ho).
    eexists. split; [apply node_after_commit |].
    fold p t.
    destruct (main_parameter_keeps_motion
                (Position.position p <=? Parameter_MAX) p t
                (set_opening_device_status now f p t node))
      as (Eo & Ec & _).
    rewrite Eo, Ec. clear Eo Ec.
    destruct (set_opening_device_status_cases now f p t node)
      as (Hopening & Hclosing & Hstop).
    destruct (opening_condition f p t) eqn:Eopen.
    + destruct (Hopening eq_refl) as (-> & -> & _).
      destruct (is_closing node); [by specialize (Hnoopen eq_refl) | done].
    + destruct (closing_condition f p t) eqn:Eclose.
      * destruct (Hclosing eq_refl) as (-> & -> & _).
        destruct (is_opening node);
          [by specialize (Hnoclose eq_refl) | done].
      * rewrite (Hstop eq_refl eq_refl).
        destruct (stop_cases node) as (-> & -> & _). done.
  - destruct (isinstance_LighteningDevice node) eqn:Hl.
    + rewrite (process_node_state_lightening_device _ _ _ _ Hn Hl).
      eexists. split; [apply node_after_commit |].
      by case_match.
    + rewrite (process_node_state_other_class _ _ _ _ Hn Ho Hl).
      by exists node.
Qed.

Lemma two_calls (now1 now2 : Z) (frame : Frame) (w : World) :
  process_frames [(now1, frame); (now2, frame)] w
  = match process_frame now1 frame w with
    | Return w' => process_frame now2 frame w'
    | Raise e w' => Raise e w'
    end.
Proof.
  simpl. destruct (process_frame now1 frame w) as [w' | e w'];
    [| reflexivity].
  by destruct (process_frame now2 frame w').
Qed.

Lemma store_twice (id : Z) (n1 n2 : Node) (w : World) :
  nodes (after_update id (store id n2 (after_update id (store id n1 w))))
  = nodes (after_update id (store id n2 w)).
Proof. simpl. apply insert_insert_eq. Qed.

(** X10.  The last delivery wins: a notification delivered twice, at clock
    readings [now1] and then [now2], leaves every node as a single delivery
    at [now2] does. *)
Theorem redelivery_is_absorbed
    (now1 now2 : Z) (frame : Frame) (w : World) :
  nodes (world_of (process_frames [(now1, frame); (now2, frame)] w))
  = nodes (world_of (process_frame now2 frame w)).
Proof.
  rewrite two_calls.
  assert (Hstate : forall f,
    nodes (world_of
             match process_node_state now1 f w with
             | Return w' => process_node_state now2 f w'
             | Raise e w' => Raise e w'
             end)
    = nodes (world_of (process_node_state now2 f w))).
  { intros f.
    destruct (nodes w !! NodeState.node_id f) as [node |] eqn:Hn.
    - destruct (isinstance_OpeningDevice node) eqn:Ho.
      + rewrite !(process_node_state_opening_device _ f w node Hn Ho).
        match goal with
        | |- context [store _ ?n1 w] =>
            rewrite (process_node_state_opening_device now2 f _ n1)
        end.
        * cbn [world_of]. rewrite store_twice. simpl. f_equal.
          unfold set_opening_device_status, set_timestamps, stop_closing,
            stop_opening.
          destruct node as [c p0 t0 o0 op cl r e lmax lmin lo lt tp i sw].
          destruct op, cl; simpl;
            repeat case_match;
            first [reflexivity | clear Hn Ho; cbn in *; congruence].
        * simpl. apply lookup_insert_eq.
        * rewrite <- Ho. apply isinstance_by_class.
          case_match; simpl; apply motion_keeps_class.
      + destruct (isinstance_LighteningDevice node) eqn:Hl.
        * rewrite !(process_node_state_lightening_device _ f w node Hn Hl).
          match goal with
          | |- context [store _ ?n1 w] =>
              rewrite (process_node_state_lightening_device now2 f _ n1)
          end.
          -- cbn [world_of]. rewrite store_twice. simpl. f_equal.
             destruct node. repeat case_match; reflexivity.
          -- simpl. apply lookup_insert_eq.
          -- by case_match.
        * by rewrite !(process_node_state_other_class _ f w node Hn Ho Hl).
    - by rewrite !(process_node_state_unknown _ f w Hn). }
  destruct frame as [f | f | f | f |]; simpl.
  - apply Hstate.
  - apply Hstate.
  - destruct (nodes w !! StatusRequest.node_id f) as [node |] eqn:Hn;
      [| by rewrite !process_status_request_idle by (by rewrite Hn)].
    destruct (isinstance_Blind node) eqn:Hb;
      [| by rewrite !process_status_request_idle by (rewrite Hn; by left)].
    destruct (StatusRequest.parameter_data f !! 0) as [mp |] eqn:Hmp;
      [| by rewrite !process_status_request_idle
           by (rewrite Hn; right; by left)].
    destruct (StatusRequest.parameter_data f !! 3) as [fp3 |] eqn:Hfp3;
      [| by rewrite !process_status_request_idle
           by (rewrite Hn; right; by right)].
    rewrite (process_status_request_blind f w node mp fp3 Hn Hb Hmp Hfp3).
    match goal with
    | |- context [store _ ?n1 w] =>
        rewrite (process_status_request_blind f _ n1 mp fp3)
    end.
    + cbn [world_of]. rewrite store_twice. simpl. f_equal.
      destruct node. repeat case_match; reflexivity.
    + simpl. apply lookup_insert_eq.
    + repeat case_match; exact Hb.
    + exact Hmp.
    + exact Hfp3.
  - destruct (nodes w !! LimitationStatus.node_id f) as [node |] eqn:Hn;
      [| by rewrite !process_limitation_status_idle by (by rewrite Hn)].
    destruct (isinstance_OpeningDevice node) eqn:Ho;
      [| by rewrite !process_limitation_status_idle by (by rewrite Hn)].
    destruct (constructors_accept f) eqn:Haccept.
    + destruct (constructors_accept_true f Haccept)
        as (max & min & time & Hmax & Hmin & Htime).
      rewrite (process_limitation_status_opening_device
                 f w node max min time Hn Ho Hmax Hmin Htime).
      match goal with
      | |- context [store _ ?n1 w] =>
          rewrite (process_limitation_status_opening_device
                     f _ n1 max min time)
      end; try assumption.
      * cbn [world_of]. by rewrite store_twice.
      * simpl. apply lookup_insert_eq.
    + destruct (process_limitation_status_rejected f w node Hn Ho Haccept)
        as (node' & -> & _).
      reflexivity.
  - reflexivity.
Qed.

End Motion.

(** * Invariants of the motion state *)

Section Invariants.
Context `{codec : ParameterCodec}.

Lemma registered_before
    (now : Z) (frame : Frame) (w : World) (id : Z) (node' : Node) :
  node_after (process_frame now frame w) id = Some node' ->
  exists node, nodes w !! id = Some node.
Proof.
  destruct (process_frame_cases now frame w)
    as [-> | [(id0 & node & n' & _ & Hn & _ & ->)
       | [(f & node & _ & _ & _ & _ & ->)
         | (f & node & n' & _ & Hn & _ & _ & _ & ->)]]]; eauto.
  - destruct (decide (id0 = id)) as [<- | Hne]; [eauto |].
    rewrite node_after_commit_ne by exact Hne. eauto.
  - unfold node_after; simpl.
    destruct (decide (LimitationStatus.node_id f = id)) as [<- | Hne];
      [eauto |].
    rewrite lookup_insert_ne by exact Hne. eauto.
Qed.

(** The motion state of a node after a call is the one it had, or the one
    the motion inference computes from it. *)
Lemma motion_after
    (now : Z) (frame : Frame) (w : World) (id : Z) (node : Node) :
  nodes w !! id = Some node ->
  exists node',
    node_after (process_frame now frame w) id = Some node'
    /\ (motion_state node' = motion_state node
        \/ exists f p t,
             motion_state node'
             = motion_state (set_opening_device_status now f p t node)).
Proof.
  intros Hn.
  assert (Hstate : forall f,
    exists node',
      node_after (process_node_state now f w) id = Some node'
      /\ (motion_state node' = motion_state node
          \/ exists f p t,
               motion_state node'
               = motion_state (set_opening_device_status now f p t node))).
  { intros f.
    destruct (decide (NodeState.node_id f = id)) as [<- | Hne].
    - destruct (isinstance_OpeningDevice node) eqn:Ho.
      + rewrite (process_node_state_opening_device _ _ _ _ Hn Ho).
        eexists. split; [apply node_after_commit |].
        right. eexists f, _, _. by case_match.
      + destruct (isinstance_LighteningDevice node) eqn:Hl.
        * rewrite (process_node_state_lightening_device _ _ _ _ Hn Hl).
          eexists. split; [apply node_after_commit |].
          left. by case_match.
        * rewrite (process_node_state_other_class _ _ _ _ Hn Ho Hl).
          exists node. by split; [| left].
    - exists node. split; [| by left].
      unfold process_node_state.
      destruct (nodes w !! NodeState.node_id f);
        [simpl; by rewrite set_main_parameter_elsewhere | exact Hn]. }
  destruct frame as [f | f | f | f |]; simpl; try apply Hstate.
  - destruct (process_status_request_at f w id node Hn) as (n' & Hn' & _).
    exists n'. split; [exact Hn' |]. left.
    revert Hn'. unfold process_frame_status_request_notification, node_after.
    destruct (decide (StatusRequest.node_id f = id)) as [<- | Hne].
    + rewrite Hn. simpl.
      repeat case_match; simpl; rewrite ?lookup_insert_eq, ?Hn;
        intros [= <-]; reflexivity.
    + simpl. repeat case_match; simpl;
        rewrite ?lookup_insert_ne by exact Hne; congruence.
  - destruct (process_limitation_status_at f w id node Hn) as (n' & Hn' & _).
    exists n'. split; [exact Hn' |]. left.
    revert Hn'.
    unfold process_frame_limitation_status_notification, node_after.
    destruct (decide (LimitationStatus.node_id f = id)) as [<- | Hne].
    + rewrite Hn. simpl.
      repeat case_match; simpl; rewrite ?lookup_insert_eq, ?Hn;
        intros [= <-]; reflexivity.
    + simpl. repeat case_match; simpl;
        rewrite ?lookup_insert_ne by exact Hne; congruence.
  - exists node. by split; [| left].
Qed.

(** A property of the motion state that the motion inference keeps is kept
    on every node by every sequence of notifications. *)
Lemma invariant_over_frames (P : Node -> Prop) :
  (forall n n', motion_state n' = motion_state n -> P n -> P n') ->
  (forall now f p t n, P n -> P (set_opening_device_status now f p t n)) ->
  forall (frames : list (Z * Frame)) (w : World),
    (forall id node, nodes w !! id = Some node -> P node) ->
    forall id node',
      node_after (process_frames frames w) id = Some node' -> P node'.
Proof.
  intros Hext Hkeep.
  assert (Hstep : forall now frame w,
    (forall id node, nodes w !! id = Some node -> P node) ->
    forall id node',
      node_after (process_frame now frame w) id = Some node' -> P node').
  { intros now frame w Hall id node' Hafter.
    destruct (registered_before _ _ _ _ _ Hafter) as (node & Hn).
    destruct (motion_after now frame w id node Hn)
      as (n' & Hn' & [Hsame | (f & p & t & Hmoved)]).
    - rewrite Hafter in Hn'. injection Hn' as <-.
      apply (Hext node); [exact Hsame | by apply (Hall id)].
    - rewrite Hafter in Hn'. injection Hn' as <-.
      apply (Hext _ _ Hmoved), Hkeep. by apply (Hall id). }
  induction frames as [| [now frame] rest IH]; intros w Hall id node' Hafter.
  - by apply (Hall id).
  - simpl in Hafter.
    destruct (process_frame now frame w) as [w1 | e w1] eqn:Hrun.
    + apply (IH w1) with id; [| exact Hafter].
      intros id1 n1 Hn1. apply (Hstep now frame w Hall id1).
      by rewrite Hrun.
    + apply (Hstep now frame w Hall id). by rewrite Hrun.
Qed.

(** X14.  The two timestamps come and go together: in an installation where
    every node has [state_received_at] exactly when it has
    [estimated_completion], the same holds for every node after any sequence
    of notifications. *)
Theorem timestamps_stay_paired (frames : list (Z * Frame)) (w : World) :
  (forall id node,
     nodes w !! id = Some node ->
     (is_Some (state_received_at node)
      <-> is_Some (estimated_completion node))) ->
  forall id node',
    node_after (process_frames frames w) id = Some node' ->
    (is_Some (state_received_at node')
     <-> is_Some (estimated_completion node')).
Proof.
  apply (invariant_over_frames
           (fun n => is_Some (state_received_at n)
                     <-> is_Some (estimated_completion n))).
  - intros n n' [= _ _ -> ->]. done.
  - intros now f p t n Hn.
    destruct (set_opening_device_status_cases now f p t n)
      as (Hopening & Hclosing & Hstop).
    destruct (opening_condition f p t).
    + destruct (Hopening eq_refl) as (_ & _ & -> & ->). by split; eauto.
    + destruct (closing_condition f p t).
      * destruct (Hclosing eq_refl) as (_ & _ & -> & ->). by split; eauto.
      * rewrite (Hstop eq_refl eq_refl).
        destruct (stop_cases n) as (_ & _ & -> & -> & _).
        by destruct (is_opening n).
Qed.

(** X15.  A moving node always has an estimate: in an installation where
    every node that is opening or closing has [estimated_completion], the
    same holds for every node after any sequence of notifications. *)
Theorem moving_node_has_estimate (frames : list (Z * Frame)) (w : World) :
  (forall id node,
     nodes w !! id = Some node ->
     is_opening node || is_closing node = true ->
     is_Some (estimated_completion node)) ->
  forall id node',
    node_after (process_frames frames w) id = Some node' ->
    is_opening node' || is_closing node' = true ->
    is_Some (estimated_completion node').
Proof.
  apply (invariant_over_frames
           (fun n => is_opening n || is_closing n = true ->
                     is_Some (estimated_completion n))).
  - intros n n' [= -> -> _ ->]. done.
  - intros now f p t n Hn.
    destruct (set_opening_device_status_cases now f p t n)
      as (Hopening & Hclosing & Hstop).
    destruct (opening_condition f p t).
    + destruct (Hopening eq_refl) as (_ & _ & _ & ->). eauto.
    + destruct (closing_condition f p t).
      * destruct (Hclosing eq_refl) as (_ & _ & _ & ->). eauto.
      * rewrite (Hstop eq_refl eq_refl).
        destruct (stop_cases n) as (-> & -> & _). discriminate.
Qed.

(** X13.  A registered node that is neither an opening device nor a
    lightening device (a switch, for one) is never changed by any call, and
    a call addressed to it changes nothing at all and invokes no hook. *)
Theorem other_classes_are_never_updated
    (now : Z) (frame : Frame) (w : World) (id : Z) (node : Node) :
  nodes w !! id = Some node ->
  isinstance_OpeningDevice node = false ->
  isinstance_LighteningDevice node = false ->
  node_after (process_frame now frame w) id = Some node
  /\ (frame_node_id frame = Some id ->
      world_of (process_frame now frame w) = w).
Proof.
  intros Hn Ho Hl.
  assert (Hb : isinstance_Blind node = false).
  { unfold isinstance_OpeningDevice in Ho. unfold isinstance_Blind.
    by destruct (class_of node). }
  assert (Haddressed : frame_node_id frame = Some id ->
                       world_of (process_frame now frame w) = w).
  { destruct frame as [f | f | f | f |]; simpl; intros [= <-].
    - by rewrite (process_node_state_other_class _ _ _ _ Hn Ho Hl).
    - by rewrite (process_node_state_other_class _ _ _ _ Hn Ho Hl).
    - by rewrite process_status_request_idle by (rewrite Hn; by left).
    - by rewrite process_limitation_status_idle by (by rewrite Hn). }
  split; [| exact Haddressed].
  destruct (decide (frame_node_id frame = Some id)) as [Hid | Hother].
  - unfold node_after. by rewrite (Haddressed Hid).
  - destruct (process_frame_cases now frame w)
      as [-> | [(id0 & n0 & n' & Hid & _ & _ & ->)
         | [(f & n0 & _ & _ & _ & _ & ->)
           | (f & n0 & n' & -> & _ & _ & _ & _ & ->)]]]; try exact Hn.
    + rewrite node_after_commit_ne by congruence. exact Hn.
    + unfold node_after; simpl in *.
      rewrite lookup_insert_ne by congruence. exact Hn.
Qed.

End Invariants.

(** * The further properties at work on the small installation *)

(** The light takes half intensity and the hook is called once. *)
Lemma lightening_device_intensity_witness :
  exists w' n,
    process_frame (codec := klf200) 130 frame_light home = Return w'
    /\ nodes w' !! 3 = Some n
    /\ intensity n = Intensity.Build 25600
    /\ n = set_intensity (intensity n) (fresh_node LighteningDevice_cls)
    /\ after_update_calls w' = [3].
Proof.
  apply (lightening_device_intensity (codec := klf200) 130 frame_light
           (NodeState.Build 3 25600 25600 DONE 0) home
           (fresh_node LighteningDevice_cls));
    [by left | vm_compute; reflexivity | reflexivity].
Defined.

(** The closing window takes position 40 % and the target without feedback;
    its hook has then been called twice in all. *)
Lemma opening_device_main_parameter_witness :
  exists w' n,
    process_frame (codec := klf200) 160 frame_target_unknown home_closing
    = Return w'
    /\ nodes w' !! 1 = Some n
    /\ position n = Position.Build raw_40
    /\ target n = Position.Build UNKNOWN_VALUE
    /\ after_update_calls w' = [1; 1].
Proof.
  apply (opening_device_main_parameter (codec := klf200) 160
           frame_target_unknown
           (NodeState.Build 1 raw_40 UNKNOWN_VALUE DONE 0) home_closing
           window_closing);
    [by left | vm_compute; reflexivity | reflexivity].
Defined.

(** The blind does not notice what the window is told. *)
Lemma other_nodes_untouched_witness :
  node_after (process_frame (codec := klf200) 100 frame_closing home) 2
  = Some (fresh_node Blind_cls).
Proof.
  rewrite (other_nodes_untouched (codec := klf200) 100 frame_closing home 2);
    [vm_compute; reflexivity | by intros [=]].
Defined.

(** The window told to close keeps orientation and limitation; the light
    told its intensity keeps position and motion state. *)
Lemma node_state_footprint_witness :
  (exists n,
     node_after (process_frame (codec := klf200) 100 frame_closing home) 1
     = Some n
     /\ orientation n = Position.Build UNKNOWN_VALUE
     /\ limitation_max n = Position.Build 0xC800)
  /\ (exists n,
        node_after (process_frame (codec := klf200) 130 frame_light home) 3
        = Some n
        /\ position n = Position.Build UNKNOWN_VALUE
        /\ is_opening n = false /\ estimated_completion n = None).
Proof.
  split.
  - destruct (node_state_footprint (codec := klf200) 100 frame_closing
                (NodeState.Build 1 raw_40 raw_70 EXECUTING 30) home 1
                (fresh_node OpeningDevice_cls))
      as (n & Hn & (Ho & Hmax & _) & _);
      [by left | vm_compute; reflexivity |].
    exists n. repeat split; assumption.
  - destruct (node_state_footprint (codec := klf200) 130 frame_light
                (NodeState.Build 3 25600 25600 DONE 0) home 3
                (fresh_node LighteningDevice_cls))
      as (n & Hn & _ & Hrest & _);
      [by left | vm_compute; reflexivity |].
    exists n. split; [exact Hn |].
    destruct (Hrest eq_refl) as (Hp & _ & Hop & _ & _ & He).
    repeat split; assumption.
Defined.

(** The blind after its status request is the fresh blind but for position
    and orientation. *)
Lemma status_request_footprint_witness :
  exists n,
    node_after (process_frame (codec := klf200) 140 frame_status home) 2
    = Some n
    /\ n = set_orientation (orientation n)
             (set_position (position n) (fresh_node Blind_cls)).
Proof.
  apply (status_request_footprint (codec := klf200) 140
           (StatusRequest.Build 2 (<[0 := 55]> (<[3 := UNKNOWN_VALUE]> ∅)))
           home 2 (fresh_node Blind_cls)).
  vm_compute; reflexivity.
Defined.

(** The window after its limitation notification is the fresh window but
    for the limitation fields. *)
Lemma limitation_status_footprint_witness :
  exists n,
    node_after (process_frame (codec := klf200) 150 frame_limitation home) 1
    = Some n
    /\ n = set_limitation_time (limitation_time n)
             (set_limitation_originator (limitation_originator n)
                (set_limitation_min (limitation_min n)
                   (set_limitation_max (limitation_max n)
                      (fresh_node OpeningDevice_cls)))).
Proof.
  apply (limitation_status_footprint (codec := klf200) 150
           (LimitationStatus.Build 1 UNKNOWN_VALUE 0 1 253) home 1
           (fresh_node OpeningDevice_cls)).
  vm_compute; reflexivity.
Defined.

(** A window that is closing and is told again to close has one flag up. *)
Lemma flags_exclusive_unless_reversed_witness :
  exists n,
    node_after (process_frame (codec := klf200) 105 frame_closing
                  home_closing) 1 = Some n
    /\ is_opening n && is_closing n = false.
Proof.
  apply (flags_exclusive_unless_reversed (codec := klf200) 105 frame_closing
           (NodeState.Build 1 raw_40 raw_70 EXECUTING 30) home_closing
           window_closing).
  - by left.
  - vm_compute; reflexivity.
  - reflexivity.
  - intros _. reflexivity.
  - intros H. vm_compute in H. discriminate H.
Defined.

(** Without the switch, the whole day goes by with no exception. *)
Lemma supported_installation_never_raises_witness :
  raises (process_frames (codec := klf200) busy_day home_without_switch)
  = false.
Proof.
  apply (supported_installation_never_raises (codec := klf200));
    [| reflexivity].
  intros id node Hlookup. unfold home_without_switch in Hlookup.
  simpl in Hlookup.
  repeat (apply lookup_insert_Some in Hlookup
            as [[_ <-] | [_ Hlookup]]; [reflexivity |]).
  by rewrite lookup_empty in Hlookup.
Defined.

(** The closing window told that its target is unknown stops closing. *)
Lemma no_motion_without_target_or_time_signal_witness :
  exists n,
    node_after (process_frame (codec := klf200) 160 frame_target_unknown
                  home_closing) 1 = Some n
    /\ is_opening n = false /\ is_closing n = false.
Proof.
  apply (no_motion_without_target_or_time_signal (codec := klf200) 160
           frame_target_unknown
           (NodeState.Build 1 raw_40 UNKNOWN_VALUE DONE 0) home_closing
           window_closing);
    [by left | vm_compute; reflexivity | reflexivity | left; reflexivity].
Defined.

(** After the day, the window has both timestamps or none. *)
Lemma timestamps_stay_paired_witness :
  is_Some (state_received_at window_evening)
  <-> is_Some (estimated_completion window_evening).
Proof.
  apply (timestamps_stay_paired (codec := klf200) busy_day
           home_without_switch) with 1;
    [| vm_compute; reflexivity].
  intros id node Hlookup. unfold home_without_switch in Hlookup.
  simpl in Hlookup.
  repeat (apply lookup_insert_Some in Hlookup
            as [[_ <-] | [_ Hlookup]];
          [split; intros [x Hx]; discriminate Hx |]).
  by rewrite lookup_empty in Hlookup.
Defined.

(** After being told to close and then to open, the window has an
    estimate. *)
Lemma moving_node_has_estimate_witness :
  is_Some (estimated_completion window_reversed).
Proof.
  apply (moving_node_has_estimate (codec := klf200) (take 2 busy_day)
           home_without_switch) with 1;
    [| vm_compute; reflexivity | reflexivity].
  intros id node Hlookup. unfold home_without_switch in Hlookup.
  simpl in Hlookup.
  repeat (apply lookup_insert_Some in Hlookup
            as [[_ <-] | [_ Hlookup]];
          [intros Hmoving; discriminate Hmoving |]).
  by rewrite lookup_empty in Hlookup.
Defined.

(** The switch is the same after a status request addressed to it, and the
    world is the same too. *)
Lemma other_classes_are_never_updated_witness :
  node_after
    (process_frame (codec := klf200) 0
       (FrameStatusRequestNotification
          (StatusRequest.Build 4 (<[0 := 55]> (<[3 := 77]> ∅)))) home) 4
  = Some (fresh_node OnOffSwitch_cls)
  /\ world_of
       (process_frame (codec := klf200) 170 frame_switch home) = home.
Proof.
  split.
  - apply (other_classes_are_never_updated (codec := klf200) 0 _ home 4
             (fresh_node OnOffSwitch_cls));
      [vm_compute; reflexivity | reflexivity | reflexivity].
  - apply (other_classes_are_never_updated (codec := klf200) 170
             frame_switch home 4 (fresh_node OnOffSwitch_cls));
      [vm_compute; reflexivity | reflexivity | reflexivity | reflexivity].
Defined.
